(** * Halshare (TM2101-SR) skin-temperature reader: a shallow embedding

    The two scripts [halshare_reader.py] and [halshare_app.py] contain the
    same class [HalshareReader]; the definitions below follow that class
    method by method.  Python values are modelled as follows:

    - [int] is [Z]; a [bytes]/[bytearray] frame is a [list byte], indexing it
      yields the element's value as an [int] in 0..255;
    - [float] is the kernel's binary64 ([PrimFloat.float]); the conversion of
      an [int] operand of a float operation rounds to nearest-even and raises
      [OverflowError] when the integer is too large;
    - a naive [datetime] is its number of microseconds since
      0001-01-01 00:00:00, arithmetic outside [datetime.min .. datetime.max]
      raises [OverflowError];
    - a raised exception is the [Raise] branch of [result];
    - console output ([print]) is write-only and is not part of the model. *)

From Stdlib Require Import ZArith List String Ascii Bool Lia QArith Qpower.
From Stdlib Require Import Strings.Byte.
From Stdlib Require Import Sorting.Permutation Sorting.Sorted.
From Stdlib Require Import Floats.PrimFloat Floats.SpecFloat Floats.FloatOps.
Import ListNotations.

Local Open Scope Z_scope.

(** ** Exceptions and the error monad *)

Inductive exn : Type :=
| IndexError
| OverflowError
| BleakError        (* the transport: connect, start_notify, write, stop_notify *)
| OSError           (* opening or writing the CSV file *)
| CancelledError.   (* a BaseException: not caught by [except Exception] *)

(** [isinstance(e, Exception)]. *)
Definition is_Exception (e : exn) : bool :=
  match e with
  | CancelledError => false
  | _ => true
  end.

Inductive result (A : Type) : Type :=
| Ok (a : A)
| Raise (e : exn).
Arguments Ok {A} a.
Arguments Raise {A} e.

Definition bind {A B : Type} (m : result A) (k : A -> result B) : result B :=
  match m with
  | Ok a => k a
  | Raise e => Raise e
  end.

Declare Scope py_scope.
Delimit Scope py_scope with py.
Notation "x <- m ;; k" := (bind m (fun x => k))
  (at level 100, m at next level, right associativity) : py_scope.
Notation "' p <- m ;; k" := (bind m (fun x => match x with p => k end))
  (at level 100, p pattern, m at next level, right associativity) : py_scope.
Local Open Scope py_scope.

(** A [for] loop over an already built sequence of indices, threading the
    variables the body assigns; an exception leaves the loop at once. *)
Fixpoint for_each {I S : Type} (xs : list I) (body : I -> S -> result S) (s : S)
  : result S :=
  match xs with
  | [] => Ok s
  | x :: xs' => s' <- body x s ;; for_each xs' body s'
  end.

(** ** Built-ins: [range], indexing, [startswith] *)

(** [range(start, stop, step)] for [step <> 0]: its length is
    [max 0 (ceil ((stop - start) / step))]. *)
Definition range_len (start stop step : Z) : Z :=
  if 0 <? step then Z.max 0 ((stop - start + step - 1) / step)
  else Z.max 0 ((start - stop - step - 1) / (- step)).

Definition py_range (start stop step : Z) : list Z :=
  map (fun k => start + Z.of_nat k * step)
      (seq 0 (Z.to_nat (range_len start stop step))).

Definition len {A : Type} (l : list A) : Z := Z.of_nat (List.length l).

(** [l[i]]: a negative index counts from the end, an index outside the list
    raises [IndexError]. *)
Definition getitem {A : Type} (l : list A) (i : Z) : result A :=
  let j := if i <? 0 then i + len l else i in
  if (0 <=? j) && (j <? len l) then
    match nth_error l (Z.to_nat j) with
    | Some a => Ok a
    | None => Raise IndexError
    end
  else Raise IndexError.

(** The [int] an element of a [bytes] object is read as. *)
Definition byte_int (b : byte) : Z := Z.of_N (Byte.to_N b).

(** [data.startswith(prefix)]. *)
Fixpoint startswith (data prefix : list byte) {struct prefix} : bool :=
  match prefix, data with
  | [], _ => true
  | _ :: _, [] => false
  | p :: prefix', d :: data' => Byte.eqb d p && startswith data' prefix'
  end.

(** [b'EN'] *)
Definition b_EN : list byte := [x45; x4e].

(** ** Floats *)

(** The conversion CPython applies to an [int] operand of a float operation:
    correctly rounded (ties to even), [OverflowError] when the integer does
    not fit a finite double. *)
Definition float_of_int (z : Z) : result float :=
  let f := SF2Prim (binary_normalize prec emax z 0 false) in
  if PrimFloat.is_infinity f then Raise OverflowError else Ok f.

(** The rational a finite float denotes exactly; [None] for infinities and
    NaN. *)
Definition float_value (f : float) : option Q :=
  match Prim2SF f with
  | S754_zero _ => Some 0%Q
  | S754_finite s m e => Some (inject_Z (cond_Zopp s (Zpos m)) * Qpower 2 e)%Q
  | _ => None
  end.

(** ** Module constants *)

Definition WEARER_NAME : string := "test".
Definition BASE_TEMPERATURE : float := 25.0%float.
Definition CELSIUS_PER_LSB : float := 0.0625%float.

(** ** [HalshareReader.calculate_temperature] *)

Definition calculate_temperature (byte_value : Z) : result float :=
  let unsigned_value := if byte_value >=? 0 then byte_value else byte_value + 256 in
  u <- float_of_int unsigned_value ;;
  let temperature := (u * CELSIUS_PER_LSB + BASE_TEMPERATURE)%float in
  Ok temperature.

(** ** [datetime] and [timedelta] *)

(** A naive [datetime], as the count of microseconds since
    0001-01-01 00:00:00 in the proleptic Gregorian calendar. *)
Definition datetime : Type := Z.
(** A [timedelta], in microseconds. *)
Definition timedelta : Type := Z.

Definition US_PER_SECOND : Z := 1000000.
Definition US_PER_MINUTE : Z := 60 * US_PER_SECOND.
Definition US_PER_DAY : Z := 86400 * US_PER_SECOND.
(** [date.max.toordinal()], the ordinal of 9999-12-31. *)
Definition MAXORDINAL : Z := 3652059.
(** [datetime.max], 9999-12-31 23:59:59.999999. *)
Definition datetime_max : datetime := MAXORDINAL * US_PER_DAY - 1.
(** [datetime.min], 0001-01-01 00:00:00. *)
Definition datetime_min : datetime := 0.

Definition datetime_in_range (t : Z) : bool :=
  (datetime_min <=? t) && (t <=? datetime_max).

(** A [timedelta] holds between -999999999 and 999999999 days. *)
Definition timedelta_in_range (d : Z) : bool :=
  (-999999999 <=? d / US_PER_DAY) && (d / US_PER_DAY <=? 999999999).

(** [timedelta(minutes=m)] *)
Definition timedelta_minutes (m : Z) : result timedelta :=
  let d := m * US_PER_MINUTE in
  if timedelta_in_range d then Ok d else Raise OverflowError.

(** [t - d]: the negated delta and the resulting date must both be
    representable. *)
Definition datetime_sub (t : datetime) (d : timedelta) : result datetime :=
  if timedelta_in_range (- d) then
    let r := t - d in
    if datetime_in_range r then Ok r else Raise OverflowError
  else Raise OverflowError.

(** *** The calendar, after CPython's [_ymd2ord] and [_ord2ymd] *)

Definition is_leap (year : Z) : bool :=
  (year mod 4 =? 0) && (negb (year mod 100 =? 0) || (year mod 400 =? 0)).

Definition DAYS_IN_MONTH (month : Z) : Z :=
  match month with
  | 1 => 31 | 2 => 28 | 3 => 31 | 4 => 30 | 5 => 31 | 6 => 30
  | 7 => 31 | 8 => 31 | 9 => 30 | 10 => 31 | 11 => 30 | 12 => 31
  | _ => -1
  end.

Definition DAYS_BEFORE_MONTH (month : Z) : Z :=
  match month with
  | 1 => 0 | 2 => 31 | 3 => 59 | 4 => 90 | 5 => 120 | 6 => 151
  | 7 => 181 | 8 => 212 | 9 => 243 | 10 => 273 | 11 => 304 | 12 => 334
  | _ => -1
  end.

Definition days_before_year (year : Z) : Z :=
  let y := year - 1 in
  y * 365 + y / 4 - y / 100 + y / 400.

Definition days_before_month (year month : Z) : Z :=
  DAYS_BEFORE_MONTH month + (if (month >? 2) && is_leap year then 1 else 0).

Definition ymd2ord (year month day : Z) : Z :=
  days_before_year year + days_before_month year month + day.

Definition DI400Y : Z := 146097.
Definition DI100Y : Z := 36524.
Definition DI4Y : Z := 1461.

Definition ord2ymd (ordinal : Z) : Z * Z * Z :=
  let n := ordinal - 1 in
  let n400 := n / DI400Y in
  let n := n mod DI400Y in
  let year := n400 * 400 + 1 in
  let n100 := n / DI100Y in
  let n := n mod DI100Y in
  let n4 := n / DI4Y in
  let n := n mod DI4Y in
  let n1 := n / 365 in
  let n := n mod 365 in
  let year := year + n100 * 100 + n4 * 4 + n1 in
  if (n1 =? 4) || (n100 =? 4) then (year - 1, 12, 31)
  else
    let leapyear := (n1 =? 3) && (negb (n4 =? 24) || (n100 =? 3)) in
    let month := Z.shiftr (n + 50) 5 in
    let preceding :=
      DAYS_BEFORE_MONTH month + (if (month >? 2) && leapyear then 1 else 0) in
    if preceding >? n then
      let month := month - 1 in
      let preceding :=
        preceding
        - (DAYS_IN_MONTH month + (if (month =? 2) && leapyear then 1 else 0)) in
      (year, month, n - preceding + 1)
    else (year, month, n - preceding + 1).

(** [datetime(year, month, day, hour, minute, second)] *)
Definition mk_datetime (year month day hour minute second : Z) : datetime :=
  (((ymd2ord year month day - 1) * 24 + hour) * 60 + minute) * US_PER_MINUTE
  + second * US_PER_SECOND.

(** *** [strftime] *)

Definition digit_char (d : Z) : ascii := ascii_of_nat (48 + Z.to_nat d).

(** [n] in decimal on exactly [width] characters, padded with zeros. *)
Fixpoint zero_padded (width : nat) (n : Z) : string :=
  match width with
  | O => EmptyString
  | S w => zero_padded w (n / 10) ++ String (digit_char (n mod 10)) EmptyString
  end.

(** [t.strftime("%Y/%m/%d %H:%M:%S")], the year on four digits (for years
    below 1000 the padding is the C library's choice; completion times are
    wall-clock times, far above). *)
Definition strftime (t : datetime) : string :=
  let '(year, month, day) := ord2ymd (t / US_PER_DAY + 1) in
  let s := (t mod US_PER_DAY) / US_PER_SECOND in
  zero_padded 4 year ++ "/" ++ zero_padded 2 month ++ "/" ++ zero_padded 2 day
  ++ " " ++ zero_padded 2 (s / 3600) ++ ":" ++ zero_padded 2 ((s / 60) mod 60)
  ++ ":" ++ zero_padded 2 (s mod 60).

(** ** The reader's data *)

(** An element of [data_buffer]: the dict
    [{'interval': ..., 'temperature': ..., 'raw_temp_byte': ...}]. *)
Module Sample.
Record t : Type := mk {
  interval : Z;
  temperature : float;
  raw_temp_byte : Z
}.
End Sample.

(** A row of the CSV data: the dict with keys [halshareWearerName],
    [halshareId], [datetime] and [temperature]. *)
Module CsvRow.
Record t : Type := mk {
  halshareWearerName : string;
  halshareId : string;
  datetime : string;
  temperature : float
}.
End CsvRow.

(** The object [BleakClient(address)]. *)
Inductive BleakClient : Type := mkBleakClient (address : string).

(** The attributes of a [HalshareReader] instance. *)
Record HalshareReader : Type := mkReader {
  address : string;
  client : option BleakClient;
  data_buffer : list Sample.t;
  measurement_complete : bool;
  data_acquisition_time : option datetime
}.

(** [HalshareReader.__init__] *)
Definition init (address : string) : HalshareReader :=
  {| address := address;
     client := None;
     data_buffer := [];
     measurement_complete := false;
     data_acquisition_time := None |}.

Definition set_client (c : option BleakClient) (self : HalshareReader) :=
  {| address := address self;
     client := c;
     data_buffer := data_buffer self;
     measurement_complete := measurement_complete self;
     data_acquisition_time := data_acquisition_time self |}.

Definition set_data_buffer (buf : list Sample.t) (self : HalshareReader) :=
  {| address := address self;
     client := client self;
     data_buffer := buf;
     measurement_complete := measurement_complete self;
     data_acquisition_time := data_acquisition_time self |}.

(** [self.data_buffer.append(d)] *)
Definition data_buffer_append (d : Sample.t) (self : HalshareReader) :=
  set_data_buffer (data_buffer self ++ [d]) self.

(** [self.measurement_complete = True; self.data_acquisition_time = now] *)
Definition set_complete (now : datetime) (self : HalshareReader) :=
  {| address := address self;
     client := client self;
     data_buffer := data_buffer self;
     measurement_complete := true;
     data_acquisition_time := Some now |}.

(** ** [notification_handler], the callback of [setup_notification]

    [now] is the value [datetime.now()] returns at the moment the completion
    time is recorded. *)
Definition notification_handler (now : datetime) (data : list byte)
    (self : HalshareReader) : result HalshareReader :=
  if startswith data b_EN then
    Ok (set_complete now self)
  else if (len data >=? 2) && (len data mod 2 =? 0) then
    for_each (py_range 0 (len data) 2)
      (fun i self =>
         interval_byte <- getitem data i ;;
         temp_byte <- getitem data (i + 1) ;;
         temperature <- calculate_temperature (byte_int temp_byte) ;;
         Ok (data_buffer_append
               {| Sample.interval := byte_int interval_byte;
                  Sample.temperature := temperature;
                  Sample.raw_temp_byte := byte_int temp_byte |} self))
      self
  else Ok self.

(** ** [HalshareReader.generate_csv_data] *)

(** The body of the loop [for i in range(len(self.data_buffer) - 1, -1, -1)],
    on the variables [csv_rows] and [current_time]. *)
Definition csv_loop_body (self : HalshareReader) (i : Z)
    (vars : list CsvRow.t * datetime) : result (list CsvRow.t * datetime) :=
  let '(csv_rows, current_time) := vars in
  data <- getitem (data_buffer self) i ;;
  let csv_rows :=
    csv_rows ++
    [ {| CsvRow.halshareWearerName := WEARER_NAME;
         CsvRow.halshareId := address self;
         CsvRow.datetime := strftime current_time;
         CsvRow.temperature := Sample.temperature data |} ] in
  if i >? 0 then
    delta <- timedelta_minutes (Sample.interval data) ;;
    current_time <- datetime_sub current_time delta ;;
    Ok (csv_rows, current_time)
  else Ok (csv_rows, current_time).

Definition generate_csv_data (self : HalshareReader) : result (list CsvRow.t) :=
  match data_buffer self, data_acquisition_time self with
  | [], _ | _, None => Ok []      (* not data_buffer or not data_acquisition_time *)
  | _ :: _, Some acquisition_time =>
    ' (csv_rows, _) <-
      for_each (py_range (len (data_buffer self) - 1) (-1) (-1))
        (csv_loop_body self) ([], acquisition_time) ;;
    Ok (rev csv_rows)
  end.

(** ** The transport, the event loop and the session

    The coroutines of the reader run on one event loop: the notification
    callback runs only while a coroutine is suspended at an [await].  What the
    outside does at each [await] is given by a [world]: the frames the
    transport delivers to the callback meanwhile, and whether the awaited
    call returns or raises. *)

Definition WRITE_CHAR_UUID : string := "804cdb50-bac9-448b-8ae2-41e9750ef93a".
Definition READ_CHAR_UUID : string := "169bb1bb-ae80-4650-bf4b-afb79f38422a".
Definition DEVICE_ADDRESS : string := "6C648F32-3093-05FE-0316-FA6C24AD4DB5".

(** The calls made on the [BleakClient], whether they return or raise. *)
Inductive call : Type :=
| Call_connect
| Call_start_notify (uuid : string)
| Call_write_gatt_char (uuid : string) (payload : list byte)
| Call_stop_notify (uuid : string)
| Call_disconnect.

(** One suspension: the frames that arrive during it, each with the wall
    clock [datetime.now()] shows on arrival, and the exception the awaited
    call raises, if any. *)
Record await_event : Type := mkAwait {
  arrivals : list (datetime * list byte);
  outcome : option exn
}.

Record world : Type := mkWorld {
  w_connect : option exn;              (* client.connect() *)
  w_sleep1 : option exn;               (* asyncio.sleep(1) in main *)
  w_start_notify : await_event;        (* client.start_notify(...) *)
  w_write : await_event;               (* client.write_gatt_char(...) *)
  w_time0 : float;                     (* loop.time() before the wait loop *)
  w_sleep : nat -> await_event * float;
    (* the k-th asyncio.sleep(0.1) of the wait loop, and loop.time() after it *)
  w_stop_notify : await_event;         (* client.stop_notify(...) *)
  w_save : option exn;                 (* writing the CSV file *)
  w_link_alive : bool;                 (* the link is still up at teardown *)
  w_disconnect : option exn            (* client.disconnect() *)
}.

Record session : Type := mkSession {
  reader : HalshareReader;             (* self *)
  connected : bool;                    (* client.connect() has returned *)
  notifying : bool;                    (* the callback is subscribed *)
  calls : list call;                   (* calls made so far, oldest first *)
  csv_file : option (list CsvRow.t)       (* the rows written by save_to_csv *)
}.

Definition set_reader (r : HalshareReader) (s : session) : session :=
  {| reader := r; connected := connected s; notifying := notifying s;
     calls := calls s; csv_file := csv_file s |}.
Definition set_connected (b : bool) (s : session) : session :=
  {| reader := reader s; connected := b; notifying := notifying s;
     calls := calls s; csv_file := csv_file s |}.
Definition set_notifying (b : bool) (s : session) : session :=
  {| reader := reader s; connected := connected s; notifying := b;
     calls := calls s; csv_file := csv_file s |}.
Definition record_call (c : call) (s : session) : session :=
  {| reader := reader s; connected := connected s; notifying := notifying s;
     calls := calls s ++ [c]; csv_file := csv_file s |}.
Definition set_csv_file (rows : list CsvRow.t) (s : session) : session :=
  {| reader := reader s; connected := connected s; notifying := notifying s;
     calls := calls s; csv_file := Some rows |}.

(** The result of running a coroutine: it returns, raises, or the model's
    fuel for the wait loop is used up. *)
Inductive sresult (A : Type) : Type :=
| Returned (a : A) (s : session)
| Raised (e : exn) (s : session)
| OutOfFuel.
Arguments Returned {A} a s.
Arguments Raised {A} e s.
Arguments OutOfFuel {A}.

Definition coro (A : Type) : Type := session -> sresult A.

Definition ret {A : Type} (a : A) : coro A := fun s => Returned a s.

Definition cbind {A B : Type} (m : coro A) (k : A -> coro B) : coro B :=
  fun s =>
    match m s with
    | Returned a s' => k a s'
    | Raised e s' => Raised e s'
    | OutOfFuel => OutOfFuel
    end.

Declare Scope aio_scope.
Delimit Scope aio_scope with aio.
Notation "x <- m ;; k" := (cbind m (fun x => k))
  (at level 100, m at next level, right associativity) : aio_scope.

(** A synchronous method of the reader called from a coroutine. *)
Definition lift {A : Type} (f : HalshareReader -> result A) : coro A :=
  fun s =>
    match f (reader s) with
    | Ok a => Returned a s
    | Raise e => Raised e s
    end.

(** [try: body  except Exception: (print)] *)
Definition try_except_Exception (body : coro unit) : coro unit :=
  fun s =>
    match body s with
    | Raised e s' => if is_Exception e then Returned tt s' else Raised e s'
    | r => r
    end.

(** [try: body  finally: fin] *)
Definition try_finally {A : Type} (body : coro A) (fin : coro unit) : coro A :=
  fun s =>
    match body s with
    | Returned a s' =>
        match fin s' with
        | Returned _ s'' => Returned a s''
        | Raised e s'' => Raised e s''
        | OutOfFuel => OutOfFuel
        end
    | Raised e s' =>
        match fin s' with
        | Returned _ s'' => Raised e s''
        | Raised e' s'' => Raised e' s''
        | OutOfFuel => OutOfFuel
        end
    | OutOfFuel => OutOfFuel
    end.

(** The transport calls the callback with one frame.  The callback never
    raises ([notification_handler_total] below), so the second branch is
    never taken. *)
Definition on_frame (self : HalshareReader) (frame : datetime * list byte)
  : HalshareReader :=
  match notification_handler (fst frame) (snd frame) self with
  | Ok self' => self'
  | Raise _ => self
  end.

Definition deliver (frames : list (datetime * list byte)) (self : HalshareReader)
  : HalshareReader :=
  fold_left on_frame frames self.

(** Suspension at an [await]: the frames that arrive are handled when the
    callback is subscribed, then the awaited call returns or raises. *)
Definition handle_arrivals (ev : await_event) (s : session) : session :=
  if notifying s then set_reader (deliver (arrivals ev) (reader s)) s else s.

Definition await (ev : await_event) : coro unit :=
  fun s =>
    let s' := handle_arrivals ev s in
    match outcome ev with
    | None => Returned tt s'
    | Some e => Raised e s'
    end.

(** [HalshareReader.connect] *)
Definition connect (w : world) : coro unit :=
  fun s =>
    let s := set_reader (set_client (Some (mkBleakClient (address (reader s))))
                                    (reader s)) s in
    let s := record_call Call_connect s in
    match w_connect w with
    | None => Returned tt (set_connected true s)
    | Some e => Raised e s
    end.

(** [HalshareReader.setup_notification]: [start_notify] subscribes the
    callback; frames may already arrive before it returns. *)
Definition setup_notification (w : world) : coro unit :=
  fun s =>
    let s := record_call (Call_start_notify READ_CHAR_UUID) s in
    match outcome (w_start_notify w) with
    | None => await (w_start_notify w) (set_notifying true s)
    | Some e => Raised e s
    end.

(** [HalshareReader.send_command] *)
Definition send_command (w : world) (command_str : string) : coro unit :=
  fun s =>
    let command_bytes := list_byte_of_string (command_str ++ String "010" EmptyString) in
    await (w_write w)
          (record_call (Call_write_gatt_char WRITE_CHAR_UUID command_bytes) s).

(** [x > n] for a float [x] and an int [n]: Python compares the exact
    values. *)
Definition float_gt_int (x : float) (n : Z) : bool :=
  match Prim2SF x with
  | S754_nan => false
  | S754_infinity s => negb s
  | _ =>
      match float_value x with
      | Some q => negb (Qle_bool q (inject_Z n))
      | None => false
      end
  end.

(** How the wait loop was left: its condition became false, or [break]. *)
Inductive loop_exit : Type := Exit_complete | Exit_timeout.

(** The loop
    [while not self.measurement_complete:
         await asyncio.sleep(0.1)
         if loop.time() - start_time > timeout: break]
    from its [k]-th iteration on. *)
Fixpoint wait_loop (w : world) (timeout : Z) (start_time : float)
    (fuel k : nat) : coro loop_exit :=
  fun s =>
    if measurement_complete (reader s) then Returned Exit_complete s
    else
      match fuel with
      | O => OutOfFuel
      | S fuel' =>
          match await (fst (w_sleep w k)) s with
          | Returned _ s' =>
              if float_gt_int (snd (w_sleep w k) - start_time)%float timeout
              then Returned Exit_timeout s'
              else wait_loop w timeout start_time fuel' (S k) s'
          | Raised e s' => Raised e s'
          | OutOfFuel => OutOfFuel
          end
      end.

(** [await self.client.stop_notify(READ_CHAR_UUID)] *)
Definition stop_notify (w : world) : coro unit :=
  fun s =>
    match await (w_stop_notify w) (record_call (Call_stop_notify READ_CHAR_UUID) s) with
    | Returned _ s' => Returned tt (set_notifying false s')
    | r => r
    end.

Local Open Scope aio_scope.

(** [HalshareReader.get_temperature_data] *)
Definition get_temperature_data (w : world) (fuel : nat) (timeout : Z)
  : coro (list Sample.t) :=
  _ <- setup_notification w ;;
  _ <- send_command w "GETDATA" ;;
  let start_time := w_time0 w in
  _ <- wait_loop w timeout start_time fuel 0 ;;
  _ <- stop_notify w ;;
  fun s => Returned (data_buffer (reader s)) s.

(** [HalshareReader.disconnect] *)
Definition disconnect (w : world) : coro unit :=
  fun s =>
    match client (reader s) with
    | Some _ =>
        if connected s && w_link_alive w then   (* self.client.is_connected *)
          match await (mkAwait [] (w_disconnect w)) (record_call Call_disconnect s) with
          | Returned _ s' => Returned tt (set_connected false (set_notifying false s'))
          | r => r
          end
        else Returned tt s
    | None => Returned tt s
    end.

(** [save_to_csv] *)
Definition save_to_csv (w : world) (csv_data : list CsvRow.t) : coro unit :=
  fun s =>
    match csv_data with
    | [] => Returned tt s
    | _ :: _ =>
        match w_save w with
        | None => Returned tt (set_csv_file csv_data s)
        | Some e => Raised e s
        end
    end.

(** The session before anything has been called on the transport. *)
Definition session_of (self : HalshareReader) : session :=
  {| reader := self; connected := false; notifying := false;
     calls := []; csv_file := None |}.

(** The body of the [try] statement of [main]. *)
Definition main_body (w : world) (fuel : nat) : coro unit :=
  _ <- connect w ;;
  _ <- await (mkAwait [] (w_sleep1 w)) ;;
  measurements <- get_temperature_data w fuel 60 ;;
  match measurements with
  | _ :: _ =>
      csv_data <- lift generate_csv_data ;;
      save_to_csv w csv_data
  | [] => ret tt
  end.

(** [main], on the address of the device: [halshare_reader.py] runs it on
    [DEVICE_ADDRESS], [halshare_app.py] runs the same [try] statement on the
    address the user selected. *)
Definition main_on (w : world) (fuel : nat) (device_address : string)
  : sresult unit :=
  let reader := init device_address in
  try_finally
    (try_except_Exception (main_body w fuel))
    (disconnect w)
    (session_of reader).

Definition main (w : world) (fuel : nat) : sresult unit :=
  main_on w fuel DEVICE_ADDRESS.

Local Close Scope aio_scope.

(** * Specification-side definitions

    What the specification says the operations compute, stated independently
    of the code above and compared with it in the theorems below. *)

(** The temperature the encoding assigns to a raw byte, as an exact
    rational: [raw * 0.0625 + 25.0]. *)
Definition temperature_Q (raw : Z) : Q := (inject_Z raw * (625 # 10000) + 25)%Q.

(** The codec's result on [b] is a finite float whose exact value is
    [temperature_Q b] and which lies between 25.0 and 40.9375. *)
Definition codec_check (b : Z) : bool :=
  match calculate_temperature b with
  | Ok t =>
      match float_value t with
      | Some q =>
          Qeq_bool q (temperature_Q b)
          && Qle_bool 25 q && Qle_bool q (409375 # 10000)
          && (25 <=? t)%float && (t <=? 40.9375)%float
      | None => false
      end
  | Raise _ => false
  end.

(** The decoded temperature of a frame byte. *)
Definition temperature_of_byte (b : byte) : float :=
  match calculate_temperature (byte_int b) with
  | Ok t => t
  | Raise _ => BASE_TEMPERATURE
  end.

(** The sample the byte pair number [k] of a frame encodes. *)
Definition sample_at (data : list byte) (k : nat) : Sample.t :=
  {| Sample.interval := byte_int (nth (2 * k) data x00);
     Sample.temperature := temperature_of_byte (nth (2 * k + 1) data x00);
     Sample.raw_temp_byte := byte_int (nth (2 * k + 1) data x00) |}.

(** The samples of a frame, pair 0 first. *)
Definition frame_samples (data : list byte) : list Sample.t :=
  map (sample_at data) (seq 0 (Nat.div (List.length data) 2)).

(** The samples a frame contributes to the buffer: none for an end marker,
    the pairs of an even-length frame, none otherwise. *)
Definition samples_of_frame (data : list byte) : list Sample.t :=
  if startswith data b_EN then []
  else if (len data >=? 2) && (len data mod 2 =? 0) then frame_samples data
  else [].

(** The sum of the intervals of a run of samples, in minutes. *)
Definition sum_intervals (l : list Sample.t) : Z :=
  fold_right (fun s acc => Sample.interval s + acc) 0 l.

(** The timestamps of a buffer stored oldest first: each sample is stamped
    with the completion time minus the intervals of all later samples. *)
Fixpoint stamps (T : datetime) (buf : list Sample.t) : list datetime :=
  match buf with
  | [] => []
  | _ :: later => (T - sum_intervals later * US_PER_MINUTE) :: stamps T later
  end.

(** The record of a sample stamped [t]. *)
Definition record_of (device : string) (t : datetime) (s : Sample.t) : CsvRow.t :=
  {| CsvRow.halshareWearerName := WEARER_NAME;
     CsvRow.halshareId := device;
     CsvRow.datetime := strftime t;
     CsvRow.temperature := Sample.temperature s |}.

(** The reconstructed records, oldest first: each sample with its stamp. *)
Fixpoint reconstruct (device : string) (T : datetime) (buf : list Sample.t)
  : list CsvRow.t :=
  match buf with
  | [] => []
  | s :: later =>
      record_of device (T - sum_intervals later * US_PER_MINUTE) s
      :: reconstruct device T later
  end.

(** The frames that are end markers. *)
Definition is_end_marker (frame : datetime * list byte) : bool :=
  startswith (snd frame) b_EN.

(** The samples a sequence of frames contributes, in arrival order. *)
Definition decoded (frames : list (datetime * list byte)) : list Sample.t :=
  flat_map (fun frame => samples_of_frame (snd frame)) frames.

(** The frames that arrive during [n] sleeps of the wait loop, from the
    [k]-th on. *)
Definition sleep_frames (w : world) (k n : nat) : list (datetime * list byte) :=
  flat_map (fun j => arrivals (fst (w_sleep w j))) (seq k n).

(** The frames that arrive from the subscription up to the end of sleep
    number [n] of the wait loop. *)
Definition frames_until (w : world) (n : nat) : list (datetime * list byte) :=
  arrivals (w_start_notify w) ++ arrivals (w_write w) ++ sleep_frames w 0 (S n).

(** The time the wait loop sees after its [k]-th sleep is beyond the
    timeout. *)
Definition timed_out (w : world) (timeout : Z) (k : nat) : bool :=
  float_gt_int (snd (w_sleep w k) - w_time0 w)%float timeout.

(** [get_temperature_data] up to the end of its wait loop. *)
Definition wait_for_completion (w : world) (fuel : nat) (timeout : Z)
  : coro loop_exit :=
  cbind (setup_notification w) (fun _ =>
  cbind (send_command w "GETDATA") (fun _ =>
  wait_loop w timeout (w_time0 w) fuel 0)).

(** The command [GETDATA] followed by a line feed. *)
Definition GETDATA_LF : list byte :=
  [x47; x45; x54; x44; x41; x54; x41; x0a].

(** The session of [main] up to the point where the wait loop is left:
    [Returned Exit_complete] on completion, [Returned Exit_timeout] on
    timeout, [Raised e] when connecting, the subscription, the command write
    or the wait loop raises [e]. *)
Definition session_until_exit (w : world) (fuel : nat) (device_address : string)
  : sresult loop_exit :=
  cbind (connect w) (fun _ =>
  cbind (await (mkAwait [] (w_sleep1 w))) (fun _ =>
  wait_for_completion w fuel 60))
  (session_of (init device_address)).

(** The session a coroutine ends in, when it ends. *)
Definition final_session {A : Type} (r : sresult A) : option session :=
  match r with
  | Returned _ s => Some s
  | Raised _ s => Some s
  | OutOfFuel => None
  end.

Definition is_stop_notify (c : call) : bool :=
  match c with Call_stop_notify _ => true | _ => false end.

Definition is_disconnect (c : call) : bool :=
  match c with Call_disconnect => true | _ => false end.

(** How many times a kind of call was attempted. *)
Definition attempts (kind : call -> bool) (cs : list call) : nat :=
  List.length (filter kind cs).

Definition is_None {A : Type} (o : option A) : bool :=
  match o with None => true | Some _ => false end.

(** ** Scenarios *)

Definition quiet : await_event := mkAwait [] None.

(** One frame of a sample arrives while the command is written, one during
    the first sleep, no end marker ever; the clock passes the timeout of 60
    after the third sleep. *)
Definition world_timeout : world :=
  {| w_connect := None;
     w_sleep1 := None;
     w_start_notify := quiet;
     w_write := mkAwait [(mk_datetime 2024 1 1 9 59 0, [x05; x28])] None;
     w_time0 := 100%float;
     w_sleep := fun k =>
       match k with
       | O => (mkAwait [(mk_datetime 2024 1 1 9 59 1, [x0a; x30])] None, 130%float)
       | 1%nat => (quiet, 160%float)
       | _ => (quiet, 160.5%float)
       end;
     w_stop_notify := quiet;
     w_save := None;
     w_link_alive := true;
     w_disconnect := None |}.

(** The device rejects the subscription. *)
Definition world_subscribe_fails : world :=
  {| w_connect := None;
     w_sleep1 := None;
     w_start_notify := mkAwait [] (Some BleakError);
     w_write := quiet;
     w_time0 := 100%float;
     w_sleep := fun _ => (quiet, 100%float);
     w_stop_notify := quiet;
     w_save := None;
     w_link_alive := true;
     w_disconnect := None |}.

(** * Device discovery

    [scan_and_select_device] of [halshare_app.py] and [scan_devices] of
    [scan_ble_devices.py] filter and sort the result of
    [BleakScanner.discover(return_adv=True)], a dict from addresses to pairs
    of a device and its advertisement data; the dict is modelled by the list
    of its items in insertion order. *)

Module BLEDevice.
Record t : Type := mk {
  address : string;
  name : option string
}.
End BLEDevice.

Module AdvertisementData.
Record t : Type := mk {
  rssi : Z
}.
End AdvertisementData.

(** An item [(address, (device, adv_data))] of [devices.items()]. *)
Definition scan_item : Type := string * (BLEDevice.t * AdvertisementData.t).

Definition item_device (item : scan_item) : BLEDevice.t := fst (snd item).
Definition item_rssi (item : scan_item) : Z := AdvertisementData.rssi (snd (snd item)).

(** [device.name and device.name.startswith("TM2101-SR")]: [None] and the
    empty string are falsy. *)
Definition name_matches (device : BLEDevice.t) : bool :=
  match BLEDevice.name device with
  | Some n => negb (String.eqb n "") && String.prefix "TM2101-SR" n
  | None => false
  end.

(** The dict comprehension [filtered_devices]. *)
Definition filter_devices (devices : list scan_item) : list scan_item :=
  filter (fun item => name_matches (item_device item)) devices.

(** [sorted(items, key=lambda x: x[1][1].rssi, reverse=True)]: descending,
    and stable (items of equal key keep their order). *)
Fixpoint insert_by_rssi (x : scan_item) (l : list scan_item) : list scan_item :=
  match l with
  | [] => [x]
  | y :: l' =>
      if item_rssi y >? item_rssi x then y :: insert_by_rssi x l'
      else x :: y :: l'
  end.

Definition sorted_by_rssi (items : list scan_item) : list scan_item :=
  fold_right insert_by_rssi [] items.

(** The devices [scan_devices] prints and [scan_and_select_device] offers,
    in that order. *)
Definition sorted_devices (devices : list scan_item) : list scan_item :=
  sorted_by_rssi (filter_devices devices).

(** [device_list]: a triple [(device.address, device.name, rssi)] per
    device offered. *)
Definition device_list_of (sorted : list scan_item)
  : list (string * option string * Z) :=
  map (fun item => (BLEDevice.address (item_device item),
                    BLEDevice.name (item_device item),
                    item_rssi item)) sorted.

(** What [int(input(...))] yields at one prompt: an int, a [ValueError]
    (the text is not a number), or a [KeyboardInterrupt]; the end of the
    input stream ([EOFError]) is left out. *)
Inductive typed : Type :=
| Typed_int (choice_num : Z)
| Typed_invalid
| Typed_interrupt.

(** The result of [scan_and_select_device]: an address, [None], an
    exception, or the prompt is still waiting once the inputs given are used
    up. *)
Inductive selection : Type :=
| Selected (selected_address : string)
| Selected_None
| Selection_raised (e : exn)
| Awaiting_input.

(** The loop [while True: ...] that asks for a number. *)
Fixpoint select_loop (device_list : list (string * option string * Z))
    (inputs : list typed) : selection :=
  match inputs with
  | [] => Awaiting_input
  | Typed_int choice_num :: inputs' =>
      if (1 <=? choice_num) && (choice_num <=? len device_list) then
        match getitem device_list (choice_num - 1) with
        | Ok (selected_address, _, _) => Selected selected_address
        | Raise e => Selection_raised e
        end
      else select_loop device_list inputs'
  | Typed_invalid :: inputs' => select_loop device_list inputs'
  | Typed_interrupt :: _ => Selected_None
  end.

(** [scan_and_select_device], on the result of the discovery. *)
Definition scan_and_select_device (devices : list scan_item)
    (inputs : list typed) : selection :=
  match filter_devices devices with
  | [] => Selected_None
  | _ :: _ =>
      select_loop (device_list_of (sorted_devices devices)) inputs
  end.

(** The result of [main] of [halshare_app.py]: it returns before creating a
    reader, or runs the session on the address selected. *)
Inductive app_result : Type :=
| App_not_selected
| App_selection_raised (e : exn)
| App_awaiting_input
| App_session (selected_address : string) (r : sresult unit).

Definition app_main (devices : list scan_item) (inputs : list typed)
    (w : world) (fuel : nat) : app_result :=
  match scan_and_select_device devices inputs with
  | Selected selected_address =>
      App_session selected_address (main_on w fuel selected_address)
  | Selected_None => App_not_selected
  | Selection_raised e => App_selection_raised e
  | Awaiting_input => App_awaiting_input
  end.

(** * Further specification-side definitions *)

(** An answer the selection loop rejects: not a number, or a number outside
    1..n. *)
Definition rejected (n : Z) (t : typed) : Prop :=
  match t with
  | Typed_int m => m < 1 \/ n < m
  | Typed_invalid => True
  | Typed_interrupt => False
  end.

(** Two bytes in increasing order are decoded to temperatures in increasing
    order. *)
Definition codec_order_check (a b : Z) : bool :=
  if a <? b then
    match calculate_temperature a, calculate_temperature b with
    | Ok ta, Ok tb => (ta <? tb)%float
    | _, _ => false
    end
  else true.

(** The arrival time of the last end marker among some frames. *)
Definition last_end_marker (frames : list (datetime * list byte))
  : option datetime :=
  fold_left (fun acc frame => if is_end_marker frame then Some (fst frame) else acc)
            frames None.

(** A sample as the decoder builds it: both bytes are bytes and the
    temperature is the codec's value on the raw byte. *)
Definition sample_decoded (s : Sample.t) : Prop :=
  0 <= Sample.interval s <= 255
  /\ 0 <= Sample.raw_temp_byte s <= 255
  /\ calculate_temperature (Sample.raw_temp_byte s) = Ok (Sample.temperature s).

(** The calls of a session that goes all the way, without the disconnect. *)
Definition session_calls : list call :=
  [Call_connect; Call_start_notify READ_CHAR_UUID;
   Call_write_gatt_char WRITE_CHAR_UUID GETDATA_LF;
   Call_stop_notify READ_CHAR_UUID].

(** No frame of the world is an end marker. *)
Definition never_completes (w : world) : Prop :=
  existsb is_end_marker (arrivals (w_start_notify w)) = false
  /\ existsb is_end_marker (arrivals (w_write w)) = false
  /\ existsb is_end_marker (arrivals (w_stop_notify w)) = false
  /\ forall k, existsb is_end_marker (arrivals (fst (w_sleep w k))) = false.

(** ** Further scenarios *)

(** A sample arrives while the command is written, another during the first
    sleep, and the end marker during the second sleep, at 10:00:00. *)
Definition world_completion : world :=
  {| w_connect := None;
     w_sleep1 := None;
     w_start_notify := quiet;
     w_write := mkAwait [(mk_datetime 2024 1 1 9 59 58, [x05; x28])] None;
     w_time0 := 100%float;
     w_sleep := fun k =>
       match k with
       | O => (mkAwait [(mk_datetime 2024 1 1 9 59 59, [x0a; x30])] None, 100.125%float)
       | 1%nat => (mkAwait [(mk_datetime 2024 1 1 10 0 0, [x45; x4e])] None, 100.25%float)
       | _ => (quiet, 200%float)
       end;
     w_stop_notify := quiet;
     w_save := None;
     w_link_alive := true;
     w_disconnect := None |}.

(** The device rejects the subscription, and the disconnect fails too. *)
Definition world_disconnect_fails : world :=
  {| w_connect := None;
     w_sleep1 := None;
     w_start_notify := mkAwait [] (Some BleakError);
     w_write := quiet;
     w_time0 := 100%float;
     w_sleep := fun _ => (quiet, 100%float);
     w_stop_notify := quiet;
     w_save := None;
     w_link_alive := true;
     w_disconnect := Some BleakError |}.

(** The discovery finds two sensors and a device of another kind. *)
Definition devices_found : list scan_item :=
  [ ("AA"%string,
     (BLEDevice.mk "AA" (Some "TM2101-SR 0001"%string), AdvertisementData.mk (-70)));
    ("BB"%string,
     (BLEDevice.mk "BB" (Some "Headset"%string), AdvertisementData.mk (-40)));
    ("CC"%string,
     (BLEDevice.mk "CC" (Some "TM2101-SR 0002"%string), AdvertisementData.mk (-55))) ].

(** * Properties *)

(** ** The error monad and the built-ins *)

Lemma for_each_ext_in {I S : Type} (xs : list I) (f g : I -> S -> result S) (s : S) :
  (forall i s, In i xs -> f i s = g i s) ->
  for_each xs f s = for_each xs g s.
Proof.
  revert s; induction xs as [|x xs IH]; intros s H; simpl; [reflexivity|].
  rewrite (H x s (or_introl eq_refl)).
  destruct (g x s) as [s'|e]; simpl; [|reflexivity].
  apply IH. intros i s0 Hi. apply H. right; exact Hi.
Qed.

Lemma getitem_nth {A : Type} (l : list A) (i : nat) (d : A) :
  (i < List.length l)%nat -> getitem l (Z.of_nat i) = Ok (nth i l d).
Proof.
  intros Hi. unfold getitem, len.
  destruct (Z.ltb_spec (Z.of_nat i) 0) as [Hneg|_]; [lia|].
  destruct (Z.leb_spec 0 (Z.of_nat i)) as [_|Hneg]; [|lia].
  destruct (Z.ltb_spec (Z.of_nat i) (Z.of_nat (List.length l))) as [_|Hge]; [|lia].
  simpl. rewrite Nat2Z.id.
  rewrite (nth_error_nth' l d Hi). reflexivity.
Qed.

Lemma byte_int_range (b : byte) : 0 <= byte_int b <= 255.
Proof.
  unfold byte_int. pose proof (Byte.to_N_bounded b) as H. lia.
Qed.

(** [range(0, 2 * m, 2)] is [0, 2, ..., 2 * (m - 1)]. *)
Lemma py_range_pairs (m : nat) :
  py_range 0 (Z.of_nat (2 * m)) 2 = map (fun k => Z.of_nat (2 * k)) (seq 0 m).
Proof.
  unfold py_range, range_len. change (0 <? 2) with true. cbv iota.
  replace (Z.of_nat (2 * m) - 0 + 2 - 1) with (1 + Z.of_nat m * 2) by lia.
  rewrite Z.div_add by lia. change (1 / 2) with 0.
  rewrite Z.max_r by lia. rewrite Z.add_0_l, Nat2Z.id.
  apply map_ext. intros k. lia.
Qed.

(** [range(n - 1, -1, -1)] is [n - 1, ..., 1, 0]. *)
Lemma py_range_down (n : nat) :
  py_range (Z.of_nat n - 1) (-1) (-1) = rev (map Z.of_nat (seq 0 n)).
Proof.
  unfold py_range, range_len. change (0 <? -1) with false. cbv iota.
  replace (Z.of_nat n - 1 - -1 - -1 - 1) with (Z.of_nat n) by lia.
  change (- -1) with 1. rewrite Z.div_1_r, Z.max_r by lia. rewrite Nat2Z.id.
  induction n as [|n IH]; [reflexivity|].
  rewrite seq_S at 2. rewrite map_app, rev_app_distr. simpl rev. simpl app.
  rewrite <- IH. rewrite <- cons_seq, <- seq_shift, map_cons, map_map.
  f_equal; [lia|]. apply map_ext. intros k. lia.
Qed.

(** ** The temperature codec *)

Lemma In_Z_below_256 (b : Z) : 0 <= b <= 255 -> In b (map Z.of_nat (seq 0 256)).
Proof.
  intros Hb. rewrite <- (Z2Nat.id b) by lia.
  apply in_map. apply in_seq. lia.
Qed.

Lemma codec_check_all : forallb codec_check (map Z.of_nat (seq 0 256)) = true.
Proof. vm_compute. reflexivity. Qed.

Lemma codec_check_byte (b : Z) : 0 <= b <= 255 -> codec_check b = true.
Proof.
  intros Hb. pose proof codec_check_all as H.
  rewrite forallb_forall in H. apply H. apply In_Z_below_256. exact Hb.
Qed.

Lemma calculate_temperature_byte (b : Z) :
  0 <= b <= 255 ->
  exists t q,
    calculate_temperature b = Ok t /\ float_value t = Some q /\
    (q == temperature_Q b)%Q /\ (25 <= q)%Q /\ (q <= 409375 # 10000)%Q /\
    (25 <=? t)%float = true /\ (t <=? 40.9375)%float = true.
Proof.
  intros Hb. pose proof (codec_check_byte b Hb) as H. unfold codec_check in H.
  destruct (calculate_temperature b) as [t|e]; [|discriminate].
  destruct (float_value t) as [q|] eqn:Hq; [|discriminate].
  repeat (apply andb_prop in H; destruct H as [H ?]).
  exists t, q.
  split; [reflexivity|]. split; [exact Hq|].
  split; [apply Qeq_bool_iff; assumption|].
  split; [apply Qle_bool_iff; assumption|].
  split; [apply Qle_bool_iff; assumption|].
  split; assumption.
Qed.

Lemma calculate_temperature_of_byte (b : byte) :
  calculate_temperature (byte_int b) = Ok (temperature_of_byte b).
Proof.
  destruct (calculate_temperature_byte (byte_int b) (byte_int_range b))
    as (t & q & Ht & _).
  unfold temperature_of_byte. rewrite Ht. reflexivity.
Qed.

(** C4: for every byte b in 0..255 the codec returns a float whose exact
    value is b * 0.0625 + 25.0 (no rounding occurs), and that value lies
    between 25.0 and 40.9375 inclusive, as a rational and in the float
    order. *)
Theorem calculate_temperature_exact (b : Z) :
  0 <= b <= 255 ->
  exists t q,
    calculate_temperature b = Ok t /\ float_value t = Some q /\
    (q == inject_Z b * (625 # 10000) + 25)%Q /\
    (25 <= q)%Q /\ (q <= 409375 # 10000)%Q /\
    (25 <=? t)%float = true /\ (t <=? 40.9375)%float = true.
Proof. exact (calculate_temperature_byte b). Qed.

(** The end points of the range are attained, at 0 and at 255. *)
Lemma calculate_temperature_exact_witness :
  0 <= 255 <= 255 /\
  exists t q,
    calculate_temperature 255 = Ok t /\ float_value t = Some q /\
    (q == inject_Z 255 * (625 # 10000) + 25)%Q /\
    (25 <= q)%Q /\ (q <= 409375 # 10000)%Q /\
    (25 <=? t)%float = true /\ (t <=? 40.9375)%float = true.
Proof.
  split; [lia | apply (calculate_temperature_exact 255); lia].
Defined.

(** C9: for every integer byte_value in -256..-1 the codec returns, without
    raising, exactly what it returns on byte_value + 256. *)
Theorem calculate_temperature_signed (byte_value : Z) :
  -256 <= byte_value <= -1 ->
  calculate_temperature byte_value = calculate_temperature (byte_value + 256)
  /\ exists t, calculate_temperature byte_value = Ok t.
Proof.
  intros Hb.
  assert (Heq : calculate_temperature byte_value
                = calculate_temperature (byte_value + 256)).
  { unfold calculate_temperature.
    destruct (Z.geb_spec byte_value 0) as [Hge|_]; [lia|].
    destruct (Z.geb_spec (byte_value + 256) 0) as [_|Hlt]; [reflexivity|lia]. }
  split; [exact Heq|].
  destruct (calculate_temperature_byte (byte_value + 256)) as (t & _ & Ht & _);
    [lia|].
  exists t. rewrite Heq. exact Ht.
Qed.

Lemma calculate_temperature_signed_witness :
  -256 <= -1 <= -1 /\
  (calculate_temperature (-1) = calculate_temperature (-1 + 256)
   /\ exists t, calculate_temperature (-1) = Ok t).
Proof.
  split; [lia | apply (calculate_temperature_signed (-1)); lia].
Defined.

(** ** The frame decoder *)

Lemma set_data_buffer_id (self : HalshareReader) :
  set_data_buffer (data_buffer self) self = self.
Proof. destruct self; reflexivity. Qed.

(** The sample loop of the callback on a frame of [2 * m] bytes, from pair
    [j] on: no index is out of range, every pair yields its sample. *)
Lemma sample_loop (data : list byte) (m : nat) :
  List.length data = (2 * m)%nat ->
  forall (c j : nat) (self : HalshareReader),
    (j + c <= m)%nat ->
    for_each (map (fun k => Z.of_nat (2 * k)) (seq j c))
      (fun i self =>
         interval_byte <- getitem data i ;;
         temp_byte <- getitem data (i + 1) ;;
         temperature <- calculate_temperature (byte_int temp_byte) ;;
         Ok (data_buffer_append
               {| Sample.interval := byte_int interval_byte;
                  Sample.temperature := temperature;
                  Sample.raw_temp_byte := byte_int temp_byte |} self))
      self
    = Ok (set_data_buffer (data_buffer self ++ map (sample_at data) (seq j c)) self).
Proof.
  intros Hlen c. induction c as [|c IH]; intros j self Hj.
  - simpl. rewrite app_nil_r, set_data_buffer_id. reflexivity.
  - cbn [seq map for_each].
    rewrite (getitem_nth data (2 * j) x00) by lia. cbn [bind].
    replace (Z.of_nat (2 * j) + 1) with (Z.of_nat (2 * j + 1)) by lia.
    rewrite (getitem_nth data (2 * j + 1) x00) by lia. cbn [bind].
    rewrite calculate_temperature_of_byte. cbn [bind].
    rewrite IH by lia.
    unfold data_buffer_append, set_data_buffer. cbn.
    rewrite <- app_assoc. reflexivity.
Qed.

Lemma even_length_half {A : Type} (l : list A) :
  len l mod 2 = 0 -> List.length l = (2 * Nat.div (List.length l) 2)%nat.
Proof.
  unfold len. intros H.
  pose proof (Nat.div_mod_eq (List.length l) 2) as Hd.
  assert (Hm : (List.length l mod 2 = 0)%nat).
  { apply Nat2Z.inj. rewrite Nat2Z.inj_mod. exact H. }
  lia.
Qed.

(** The callback on a frame that is not the end marker and has an even
    length of at least two. *)
Lemma notification_handler_even (now : datetime) (data : list byte)
    (self : HalshareReader) :
  startswith data b_EN = false ->
  (len data >=? 2) && (len data mod 2 =? 0) = true ->
  notification_handler now data self
  = Ok (set_data_buffer (data_buffer self ++ frame_samples data) self).
Proof.
  intros Hen Hc. unfold notification_handler. rewrite Hen, Hc.
  apply andb_prop in Hc. destruct Hc as [_ Hev]. apply Z.eqb_eq in Hev.
  pose proof (even_length_half data Hev) as Hlen.
  unfold len at 1. rewrite Hlen at 1. rewrite py_range_pairs.
  apply (sample_loop data _ Hlen). lia.
Qed.

(** The callback never raises: it sets the completion state on an end
    marker and otherwise appends the samples of the frame. *)
Lemma notification_handler_total (now : datetime) (data : list byte)
    (self : HalshareReader) :
  notification_handler now data self
  = Ok (if startswith data b_EN then set_complete now self
        else set_data_buffer (data_buffer self ++ samples_of_frame data) self).
Proof.
  unfold samples_of_frame.
  destruct (startswith data b_EN) eqn:Hen.
  - unfold notification_handler. rewrite Hen. reflexivity.
  - destruct ((len data >=? 2) && (len data mod 2 =? 0)) eqn:Hc.
    + apply notification_handler_even; assumption.
    + unfold notification_handler. rewrite Hen, Hc.
      rewrite app_nil_r, set_data_buffer_id. reflexivity.
Qed.

Lemma frame_samples_length (data : list byte) :
  List.length (frame_samples data) = Nat.div (List.length data) 2.
Proof. unfold frame_samples. rewrite length_map, length_seq. reflexivity. Qed.

Lemma frame_samples_nth (data : list byte) (i : nat) :
  (i < Nat.div (List.length data) 2)%nat ->
  nth_error (frame_samples data) i = Some (sample_at data i).
Proof.
  intros Hi. unfold frame_samples.
  rewrite nth_error_map, nth_error_nth' with (d := 0%nat)
    by (rewrite length_seq; exact Hi).
  rewrite seq_nth by exact Hi. reflexivity.
Qed.

(** C2: a frame whose first two bytes are E, N, whatever follows, makes the
    callback return without raising, with the completion flag set, the
    completion time set to the current wall clock, and the buffer (and the
    reader's other attributes) unchanged. *)
Theorem notification_handler_completion (now : datetime) (rest : list byte)
    (self : HalshareReader) :
  exists self',
    notification_handler now (x45 :: x4e :: rest) self = Ok self'
    /\ data_buffer self' = data_buffer self
    /\ measurement_complete self' = true
    /\ data_acquisition_time self' = Some now
    /\ address self' = address self
    /\ client self' = client self.
Proof.
  exists (set_complete now self). repeat split; reflexivity.
Qed.

(** C3: on a non-empty frame of even length that does not start with E, N
    the callback returns without raising and appends exactly length/2
    samples to the buffer, leaving everything else unchanged; the sample
    number i has the interval of byte 2i, the raw byte 2i+1 and the
    temperature the codec returns on byte 2i+1. *)
Theorem notification_handler_samples (now : datetime) (data : list byte)
    (self : HalshareReader) :
  data <> [] ->
  Nat.even (List.length data) = true ->
  startswith data b_EN = false ->
  exists samples,
    notification_handler now data self
    = Ok (set_data_buffer (data_buffer self ++ samples) self)
    /\ List.length samples = Nat.div (List.length data) 2
    /\ forall i, (i < Nat.div (List.length data) 2)%nat ->
       exists interval_byte temp_byte temperature,
         nth_error data (2 * i) = Some interval_byte
         /\ nth_error data (2 * i + 1) = Some temp_byte
         /\ calculate_temperature (byte_int temp_byte) = Ok temperature
         /\ nth_error samples i
            = Some {| Sample.interval := byte_int interval_byte;
                      Sample.temperature := temperature;
                      Sample.raw_temp_byte := byte_int temp_byte |}.
Proof.
  intros Hne Hev Hen.
  assert (Hmod : (List.length data mod 2 = 0)%nat).
  { apply Nat.even_spec in Hev. destruct Hev as [k Hk]. rewrite Hk.
    rewrite Nat.mul_comm. apply Nat.Div0.mod_mul. }
  assert (Hpos : (0 < List.length data)%nat).
  { destruct data; [congruence | simpl; lia]. }
  assert (Hc : (len data >=? 2) && (len data mod 2 =? 0) = true).
  { unfold len. apply andb_true_intro. split.
    - apply Z.geb_le.
      pose proof (Nat.div_mod_eq (List.length data) 2). lia.
    - apply Z.eqb_eq. rewrite <- (Nat2Z.inj_mod _ 2%nat).
      rewrite Hmod. reflexivity. }
  exists (frame_samples data).
  split; [apply notification_handler_even; assumption|].
  split; [apply frame_samples_length|].
  intros i Hi.
  pose proof (Nat.div_mod_eq (List.length data) 2) as Hd.
  exists (nth (2 * i) data x00), (nth (2 * i + 1) data x00),
         (temperature_of_byte (nth (2 * i + 1) data x00)).
  split; [apply nth_error_nth'; lia|].
  split; [apply nth_error_nth'; lia|].
  split; [apply calculate_temperature_of_byte|].
  apply frame_samples_nth. exact Hi.
Qed.

Lemma notification_handler_samples_witness :
  exists samples,
    notification_handler 0 [x05; x28; x0a; x30] (init "TM2101-SR")
    = Ok (set_data_buffer (data_buffer (init "TM2101-SR") ++ samples)
                          (init "TM2101-SR"))
    /\ List.length samples = Nat.div (List.length [x05; x28; x0a; x30]) 2
    /\ forall i, (i < Nat.div (List.length [x05; x28; x0a; x30]) 2)%nat ->
       exists interval_byte temp_byte temperature,
         nth_error [x05; x28; x0a; x30] (2 * i) = Some interval_byte
         /\ nth_error [x05; x28; x0a; x30] (2 * i + 1) = Some temp_byte
         /\ calculate_temperature (byte_int temp_byte) = Ok temperature
         /\ nth_error samples i
            = Some {| Sample.interval := byte_int interval_byte;
                      Sample.temperature := temperature;
                      Sample.raw_temp_byte := byte_int temp_byte |}.
Proof.
  apply (notification_handler_samples 0 [x05; x28; x0a; x30] (init "TM2101-SR")).
  - discriminate.
  - reflexivity.
  - reflexivity.
Defined.

(** C7: on an empty frame, and on a frame of odd length that does not start
    with E, N, the callback returns without raising and leaves the reader
    (buffer, completion flag, completion time) exactly as it was; the
    session goes on with the same state. *)
Theorem notification_handler_ignored (now : datetime) (data : list byte)
    (self : HalshareReader) :
  data = [] \/ (Nat.odd (List.length data) = true /\ startswith data b_EN = false) ->
  notification_handler now data self = Ok self
  /\ on_frame self (now, data) = self.
Proof.
  intros H.
  assert (Hh : notification_handler now data self = Ok self).
  { destruct H as [-> | [Hodd Hen]]; [reflexivity|].
    unfold notification_handler. rewrite Hen.
    replace (len data mod 2 =? 0) with false; [rewrite andb_false_r; reflexivity|].
    symmetry. apply Z.eqb_neq. unfold len.
    rewrite <- (Nat2Z.inj_mod _ 2%nat).
    apply Nat.odd_spec in Hodd. destruct Hodd as [k Hk]. rewrite Hk.
    replace (2 * k + 1)%nat with (1 + k * 2)%nat by lia.
    rewrite Nat.Div0.mod_add. simpl. lia. }
  split; [exact Hh|]. unfold on_frame. simpl fst; simpl snd. rewrite Hh. reflexivity.
Qed.

Lemma notification_handler_ignored_witness :
  ([x05; x28; x0a] = [] \/
   (Nat.odd (List.length [x05; x28; x0a]) = true
    /\ startswith [x05; x28; x0a] b_EN = false))
  /\ notification_handler 0 [x05; x28; x0a] (init "TM2101-SR")
     = Ok (init "TM2101-SR")
  /\ on_frame (init "TM2101-SR") (0, [x05; x28; x0a]) = init "TM2101-SR".
Proof.
  assert (H : [x05; x28; x0a] = [] \/
              (Nat.odd (List.length [x05; x28; x0a]) = true
               /\ startswith [x05; x28; x0a] b_EN = false)).
  { right. split; reflexivity. }
  split; [exact H|].
  exact (notification_handler_ignored 0 [x05; x28; x0a] (init "TM2101-SR") H).
Defined.

(** ** The timeline reconstruction *)

Lemma datetime_step (cur m : Z) :
  datetime_in_range cur = true ->
  datetime_in_range (cur - m * US_PER_MINUTE) = true ->
  (delta <- timedelta_minutes m ;; datetime_sub cur delta)
  = Ok (cur - m * US_PER_MINUTE).
Proof.
  unfold datetime_in_range, datetime_min, datetime_max, MAXORDINAL.
  intros Hc Hr. pose proof Hr as Hr'.
  apply andb_prop in Hc. destruct Hc as [Hc1 Hc2].
  apply andb_prop in Hr'. destruct Hr' as [Hr1 Hr2].
  apply Z.leb_le in Hc1, Hc2, Hr1, Hr2.
  assert (Hd : timedelta_in_range (m * US_PER_MINUTE) = true).
  { unfold timedelta_in_range. apply andb_true_intro.
    unfold US_PER_MINUTE, US_PER_DAY, US_PER_SECOND in *.
    split; apply Z.leb_le.
    - apply Z.div_le_lower_bound; lia.
    - apply Z.lt_succ_r. apply Z.div_lt_upper_bound; lia. }
  assert (Hn : timedelta_in_range (- (m * US_PER_MINUTE)) = true).
  { unfold timedelta_in_range. apply andb_true_intro.
    unfold US_PER_MINUTE, US_PER_DAY, US_PER_SECOND in *.
    split; apply Z.leb_le.
    - apply Z.div_le_lower_bound; lia.
    - apply Z.lt_succ_r. apply Z.div_lt_upper_bound; lia. }
  unfold timedelta_minutes. rewrite Hd. cbn [bind].
  unfold datetime_sub. rewrite Hn.
  unfold datetime_in_range, datetime_min, datetime_max, MAXORDINAL.
  rewrite Hr. reflexivity.
Qed.


Lemma sum_intervals_app (l1 l2 : list Sample.t) :
  sum_intervals (l1 ++ l2) = sum_intervals l1 + sum_intervals l2.
Proof.
  induction l1 as [|s l1 IH]; simpl; [reflexivity|]. rewrite IH. lia.
Qed.

(** Appending a newest sample shifts the stamps of the older ones back by
    its interval and stamps it with the completion time. *)
Lemma stamps_snoc (T : datetime) (buf : list Sample.t) (s : Sample.t) :
  stamps T (buf ++ [s])
  = stamps (T - Sample.interval s * US_PER_MINUTE) buf ++ [T].
Proof.
  unfold datetime in *.
  induction buf as [|s0 buf IH]; simpl.
  - rewrite Z.sub_0_r. reflexivity.
  - rewrite IH, sum_intervals_app. simpl. f_equal. lia.
Qed.

Lemma stamps_In_last (T : datetime) (buf : list Sample.t) :
  buf <> [] -> In T (stamps T buf).
Proof.
  intros Hne. destruct (exists_last Hne) as (buf' & s & ->).
  rewrite stamps_snoc. apply in_or_app. right. left. reflexivity.
Qed.

Lemma reconstruct_snoc (device : string) (T : datetime) (buf : list Sample.t)
    (s : Sample.t) :
  reconstruct device T (buf ++ [s])
  = reconstruct device (T - Sample.interval s * US_PER_MINUTE) buf
    ++ [record_of device T s].
Proof.
  unfold datetime in *.
  induction buf as [|s0 buf IH]; simpl.
  - rewrite Z.sub_0_r. reflexivity.
  - rewrite IH, sum_intervals_app. simpl. do 2 f_equal. lia.
Qed.

Lemma reconstruct_length (device : string) (T : datetime) (buf : list Sample.t) :
  List.length (reconstruct device T buf) = List.length buf.
Proof.
  induction buf as [|s buf IH]; simpl; [reflexivity | rewrite IH; reflexivity].
Qed.

Lemma reconstruct_stamps (device : string) (T : datetime) (buf : list Sample.t) :
  map CsvRow.datetime (reconstruct device T buf) = map strftime (stamps T buf).
Proof.
  induction buf as [|s buf IH]; simpl; [reflexivity | rewrite IH; reflexivity].
Qed.

(** Sample [k] is stamped with the completion time minus the intervals of
    the samples after it. *)
Lemma reconstruct_nth (device : string) (T : datetime) (buf : list Sample.t) :
  forall (k : nat) (s : Sample.t),
    nth_error buf k = Some s ->
    nth_error (reconstruct device T buf) k
    = Some (record_of device
              (T - sum_intervals (skipn (S k) buf) * US_PER_MINUTE) s).
Proof.
  induction buf as [|s0 buf IH]; intros k s Hk.
  - destruct k; discriminate.
  - destruct k as [|k].
    + simpl in Hk. injection Hk as ->. reflexivity.
    + simpl in Hk. apply (IH k s Hk).
Qed.

(** The loop of [generate_csv_data] over the first [length older] samples,
    newest first: it raises nothing and appends their records in reverse
    chronological order. *)
Lemma csv_loop (self : HalshareReader) (older : list Sample.t) :
  forall (newer : list Sample.t) (acc : list CsvRow.t) (cur : datetime),
    data_buffer self = older ++ newer ->
    Forall (fun t => datetime_in_range t = true) (stamps cur older) ->
    exists cur',
      for_each (rev (map Z.of_nat (seq 0 (List.length older))))
               (csv_loop_body self) (acc, cur)
      = Ok (acc ++ rev (reconstruct (address self) cur older), cur').
Proof.
  induction older as [|s older IH] using rev_ind; intros newer acc cur Hbuf Hrange.
  - exists cur. simpl. rewrite app_nil_r. reflexivity.
  - rewrite length_app, Nat.add_comm. cbn [List.length plus].
    rewrite seq_S, map_app, rev_app_distr. cbn [map rev app plus for_each].
    unfold csv_loop_body at 1.
    rewrite (getitem_nth (data_buffer self) (List.length older) s)
      by (rewrite Hbuf, !length_app; simpl; lia).
    rewrite Hbuf, <- app_assoc. cbn [app]. rewrite nth_middle. cbn [bind].
    rewrite stamps_snoc in Hrange. apply Forall_app in Hrange.
    destruct Hrange as [Hold Hcur]. apply Forall_inv in Hcur.
    rewrite reconstruct_snoc, rev_app_distr. cbn [rev app].
    destruct older as [|s0 older].
    + exists cur. reflexivity.
    + assert (Hcur' : datetime_in_range (cur - Sample.interval s * US_PER_MINUTE)
                      = true).
      { rewrite Forall_forall in Hold. apply Hold.
        apply stamps_In_last. discriminate. }
      replace (Z.of_nat (List.length (s0 :: older)) >? 0) with true
        by (symmetry; apply Z.gtb_lt; simpl; lia).
      pose proof (datetime_step cur (Sample.interval s) Hcur Hcur') as Hstep.
      destruct (timedelta_minutes (Sample.interval s)) as [delta|e];
        [|discriminate]. cbn [bind] in Hstep |- *. rewrite Hstep. cbn [bind].
      destruct (IH ([s] ++ newer)
                   (acc ++ [record_of (address self) cur s])
                   (cur - Sample.interval s * US_PER_MINUTE)) as [cur' Hloop].
      * rewrite Hbuf, <- app_assoc. reflexivity.
      * exact Hold.
      * exists cur'. unfold record_of in Hloop.
        rewrite Hloop. rewrite <- app_assoc. reflexivity.
Qed.

(** Under the representability of the stamps, [generate_csv_data] returns
    the reconstruction the specification describes. *)
Lemma generate_csv_data_reconstruct (self : HalshareReader) (T : datetime) :
  data_acquisition_time self = Some T ->
  Forall (fun t => datetime_in_range t = true) (stamps T (data_buffer self)) ->
  generate_csv_data self = Ok (reconstruct (address self) T (data_buffer self)).
Proof.
  intros HT Hrange. unfold generate_csv_data. rewrite HT.
  destruct (data_buffer self) as [|s0 buf] eqn:Hbuf; [reflexivity|].
  rewrite <- Hbuf in *. unfold len. rewrite py_range_down.
  destruct (csv_loop self (data_buffer self) [] [] T) as [cur' Hloop].
  - rewrite app_nil_r. reflexivity.
  - exact Hrange.
  - rewrite Hloop. cbn [bind app]. rewrite rev_involutive. reflexivity.
Qed.

(** The hypothesis of the theorem below holds as soon as the completion
    time is a datetime, no interval is negative (they are bytes) and the
    oldest stamp is not before [datetime.min]. *)
Lemma stamps_bounds (T : datetime) (buf : list Sample.t) :
  Forall (fun s => 0 <= Sample.interval s) buf ->
  0 <= sum_intervals buf
  /\ forall t, In t (stamps T buf) ->
       T - sum_intervals (tl buf) * US_PER_MINUTE <= t <= T.
Proof.
  unfold datetime, US_PER_MINUTE, US_PER_SECOND in *.
  induction buf as [|s later IH]; intros Hpos.
  - split; [reflexivity | intros t []].
  - apply Forall_cons_iff in Hpos. destruct Hpos as [Hs Hlater].
    destruct (IH Hlater) as [Hsum Hin].
    change (sum_intervals (s :: later))
      with (Sample.interval s + sum_intervals later).
    split; [lia|]. cbn [stamps tl]. intros t [Ht | Ht].
    { unfold US_PER_MINUTE, US_PER_SECOND in Ht. lia. }
    specialize (Hin t Ht). destruct later as [|s' later'].
    + destruct Ht.
    + apply Forall_inv in Hlater. cbn [tl] in *.
      change (sum_intervals (s' :: later'))
        with (Sample.interval s' + sum_intervals later') in *.
      lia.
Qed.

Lemma stamps_in_range (T : datetime) (buf : list Sample.t) :
  datetime_in_range T = true ->
  Forall (fun s => 0 <= Sample.interval s) buf ->
  datetime_min <= T - sum_intervals (tl buf) * US_PER_MINUTE ->
  Forall (fun t => datetime_in_range t = true) (stamps T buf).
Proof.
  intros HT Hpos Hold. apply Forall_forall. intros t Ht.
  destruct (stamps_bounds T buf Hpos) as [_ Hin]. specialize (Hin t Ht).
  unfold datetime_in_range in *. apply andb_prop in HT. destruct HT as [_ HT].
  apply Z.leb_le in HT. apply andb_true_intro.
  unfold datetime in *. split; apply Z.leb_le; lia.
Qed.

(** The intervals the decoder stores are bytes. *)
Lemma samples_of_frame_intervals (data : list byte) :
  Forall (fun s => 0 <= Sample.interval s <= 255) (samples_of_frame data).
Proof.
  unfold samples_of_frame.
  destruct (startswith data b_EN); [constructor|].
  destruct ((len data >=? 2) && (len data mod 2 =? 0)); [|constructor].
  unfold frame_samples. apply Forall_forall. intros s Hs.
  apply in_map_iff in Hs. destruct Hs as (k & <- & _).
  apply byte_int_range.
Qed.

(** C1: when the completion time is T and every stamp the reconstruction
    names is a representable [datetime], [generate_csv_data] returns one
    record per sample, oldest first; sample k carries its own temperature
    and the time T minus the sum of the intervals of the samples after k,
    so the last sample carries T, and for three samples the times are
    T - i2 - i3, T - i3 and T. *)
Theorem generate_csv_data_timeline (self : HalshareReader) (T : datetime) :
  data_acquisition_time self = Some T ->
  Forall (fun t => datetime_in_range t = true) (stamps T (data_buffer self)) ->
  exists rows,
    generate_csv_data self = Ok rows
    /\ List.length rows = List.length (data_buffer self)
    /\ (forall k s,
           nth_error (data_buffer self) k = Some s ->
           nth_error rows k
           = Some (record_of (address self)
                     (T - sum_intervals (skipn (S k) (data_buffer self))
                          * US_PER_MINUTE) s))
    /\ (forall older s,
           data_buffer self = older ++ [s] ->
           nth_error rows (List.length older)
           = Some (record_of (address self) T s))
    /\ (forall s1 s2 s3,
           data_buffer self = [s1; s2; s3] ->
           map CsvRow.datetime rows
           = [ strftime (T - Sample.interval s2 * US_PER_MINUTE
                           - Sample.interval s3 * US_PER_MINUTE);
               strftime (T - Sample.interval s3 * US_PER_MINUTE);
               strftime T ]).
Proof.
  intros HT Hrange.
  exists (reconstruct (address self) T (data_buffer self)).
  split; [apply generate_csv_data_reconstruct; assumption|].
  split; [apply reconstruct_length|].
  split; [apply reconstruct_nth|].
  split.
  - intros older s Hbuf. rewrite Hbuf, reconstruct_snoc.
    rewrite nth_error_app2 by (rewrite reconstruct_length; lia).
    rewrite reconstruct_length, Nat.sub_diag. reflexivity.
  - intros s1 s2 s3 Hbuf. rewrite Hbuf. unfold datetime in *.
    cbn [reconstruct map record_of CsvRow.datetime sum_intervals fold_right].
    rewrite !Z.add_0_r, Z.mul_0_l, Z.sub_0_r, Z.mul_add_distr_r, Z.sub_add_distr.
    reflexivity.
Qed.

Lemma generate_csv_data_timeline_witness :
  exists rows,
    generate_csv_data
      (mkReader "TM2101-SR" None
         [Sample.mk 5 27.5 40; Sample.mk 10 28 48; Sample.mk 15 28.5 56]
         true (Some (mk_datetime 2024 1 1 10 0 0)))
    = Ok rows
    /\ map CsvRow.datetime rows
       = ["2024/01/01 09:35:00"; "2024/01/01 09:45:00"; "2024/01/01 10:00:00"]%string.
Proof.
  destruct (generate_csv_data_timeline
              (mkReader "TM2101-SR" None
                 [Sample.mk 5 27.5 40; Sample.mk 10 28 48; Sample.mk 15 28.5 56]
                 true (Some (mk_datetime 2024 1 1 10 0 0)))
              (mk_datetime 2024 1 1 10 0 0))
    as (rows & Hrows & _ & _ & _ & Hthree).
  - reflexivity.
  - repeat constructor.
  - exists rows. split; [exact Hrows|].
    rewrite (Hthree _ _ _ eq_refl). reflexivity.
Defined.

(** C8: with an empty buffer, whatever the completion time, and with no
    completion time recorded, whatever the buffer, [generate_csv_data]
    returns the empty list and raises nothing. *)
Theorem generate_csv_data_empty (device : string) (bleak : option BleakClient)
    (buf : list Sample.t) (complete : bool) (time : option datetime) :
  generate_csv_data (mkReader device bleak [] complete time) = Ok []
  /\ generate_csv_data (mkReader device bleak buf complete None) = Ok [].
Proof.
  split; [reflexivity|]. destruct buf; reflexivity.
Qed.

Lemma In_py_range_down (n : nat) (i : Z) :
  In i (py_range (Z.of_nat n - 1) (-1) (-1)) ->
  exists k, i = Z.of_nat k /\ (k < n)%nat.
Proof.
  rewrite py_range_down. intros H. apply in_rev in H.
  apply in_map_iff in H. destruct H as (k & <- & Hk).
  apply in_seq in Hk. exists k. split; [reflexivity | lia].
Qed.

(** C10: two readers that differ only in the interval of the first (oldest)
    sample of their buffers get the same result from [generate_csv_data],
    records and exceptions alike. *)
Theorem generate_csv_data_first_interval (device : string)
    (bleak : option BleakClient) (complete : bool) (time : option datetime)
    (s : Sample.t) (later : list Sample.t) (interval' : Z) :
  generate_csv_data
    (mkReader device bleak
       ({| Sample.interval := interval';
           Sample.temperature := Sample.temperature s;
           Sample.raw_temp_byte := Sample.raw_temp_byte s |} :: later)
       complete time)
  = generate_csv_data (mkReader device bleak (s :: later) complete time).
Proof.
  unfold generate_csv_data. cbn [data_buffer data_acquisition_time].
  destruct time as [T|]; [|reflexivity].
  f_equal. unfold len. cbn [List.length].
  apply for_each_ext_in. intros i [rows cur] Hi.
  apply In_py_range_down in Hi. destruct Hi as (k & -> & Hk).
  unfold csv_loop_body. cbn [data_buffer address].
  destruct k as [|k].
  - reflexivity.
  - rewrite (getitem_nth _ (S k) s) by (simpl; lia).
    rewrite (getitem_nth (s :: later) (S k) s) by (simpl; lia).
    reflexivity.
Qed.

(** ** The session *)

Lemma on_frame_spec (self : HalshareReader) (frame : datetime * list byte) :
  on_frame self frame
  = if is_end_marker frame then set_complete (fst frame) self
    else set_data_buffer (data_buffer self ++ samples_of_frame (snd frame)) self.
Proof.
  unfold on_frame, is_end_marker. rewrite notification_handler_total. reflexivity.
Qed.

Lemma on_frame_buffer (self : HalshareReader) (frame : datetime * list byte) :
  data_buffer (on_frame self frame)
  = data_buffer self ++ samples_of_frame (snd frame).
Proof.
  rewrite on_frame_spec. unfold is_end_marker, samples_of_frame.
  destruct (startswith (snd frame) b_EN); simpl; [rewrite app_nil_r|]; reflexivity.
Qed.

Lemma on_frame_complete (self : HalshareReader) (frame : datetime * list byte) :
  measurement_complete (on_frame self frame)
  = measurement_complete self || is_end_marker frame.
Proof.
  rewrite on_frame_spec.
  destruct (is_end_marker frame); simpl;
    [rewrite orb_true_r | rewrite orb_false_r]; reflexivity.
Qed.

Lemma on_frame_client (self : HalshareReader) (frame : datetime * list byte) :
  client (on_frame self frame) = client self.
Proof. rewrite on_frame_spec. destruct (is_end_marker frame); reflexivity. Qed.

Lemma deliver_app (fs gs : list (datetime * list byte)) (self : HalshareReader) :
  deliver (fs ++ gs) self = deliver gs (deliver fs self).
Proof. apply fold_left_app. Qed.

(** The frames delivered to the callback add their samples to the buffer in
    arrival order. *)
Lemma deliver_buffer (fs : list (datetime * list byte)) :
  forall self, data_buffer (deliver fs self) = data_buffer self ++ decoded fs.
Proof.
  induction fs as [|f fs IH]; intros self; simpl.
  - rewrite app_nil_r. reflexivity.
  - unfold deliver in IH. rewrite IH, on_frame_buffer, <- app_assoc. reflexivity.
Qed.

Lemma deliver_complete (fs : list (datetime * list byte)) :
  forall self,
    measurement_complete (deliver fs self)
    = measurement_complete self || existsb is_end_marker fs.
Proof.
  induction fs as [|f fs IH]; intros self; simpl.
  - rewrite orb_false_r. reflexivity.
  - unfold deliver in IH. rewrite IH, on_frame_complete, orb_assoc. reflexivity.
Qed.

Lemma deliver_client (fs : list (datetime * list byte)) :
  forall self, client (deliver fs self) = client self.
Proof.
  induction fs as [|f fs IH]; intros self; simpl; [reflexivity|].
  unfold deliver in IH. rewrite IH. apply on_frame_client.
Qed.

Lemma decoded_app (fs gs : list (datetime * list byte)) :
  decoded (fs ++ gs) = decoded fs ++ decoded gs.
Proof. apply flat_map_app. Qed.

Lemma await_returns (ev : await_event) (s : session) :
  outcome ev = None ->
  await ev s
  = Returned tt (if notifying s
                 then set_reader (deliver (arrivals ev) (reader s)) s else s).
Proof. intros H. unfold await, handle_arrivals. rewrite H. reflexivity. Qed.

(** Handling arrivals and awaiting change neither the calls made, nor the
    connection, nor the client. *)
Lemma handle_arrivals_frame (ev : await_event) (s : session) :
  calls (handle_arrivals ev s) = calls s
  /\ connected (handle_arrivals ev s) = connected s
  /\ client (reader (handle_arrivals ev s)) = client (reader s).
Proof.
  unfold handle_arrivals.
  destruct (notifying s); cbn; rewrite ?deliver_client; auto.
Qed.

Lemma await_frame (ev : await_event) (s : session) :
  match await ev s with
  | Returned _ s' | Raised _ s' =>
      calls s' = calls s /\ connected s' = connected s
      /\ client (reader s') = client (reader s)
  | OutOfFuel => True
  end.
Proof.
  unfold await. destruct (outcome ev); apply handle_arrivals_frame.
Qed.

(** *** The wait loop *)

Section WaitLoop.

Variable w : world.
Variable timeout : Z.

Lemma sleep_frames_cons (k n : nat) :
  sleep_frames w k (S n) = arrivals (fst (w_sleep w k)) ++ sleep_frames w (S k) n.
Proof. reflexivity. Qed.

(** The wait loop entered at iteration [k] without a completion: when the
    clock passes the timeout after [n] more sleeps, none of them raising and
    no end marker arriving meanwhile, the loop is left by its [break], with
    the frames of these sleeps handled in order. *)
Lemma wait_loop_timeout (start_time : float) :
  forall (n fuel k : nat) (s : session),
    (n < fuel)%nat ->
    notifying s = true ->
    measurement_complete (reader s) = false ->
    (forall j, (j <= n)%nat -> outcome (fst (w_sleep w (k + j))) = None) ->
    (forall j, (j < n)%nat ->
       float_gt_int (snd (w_sleep w (k + j)) - start_time)%float timeout = false) ->
    float_gt_int (snd (w_sleep w (k + n)) - start_time)%float timeout = true ->
    existsb is_end_marker (sleep_frames w k (S n)) = false ->
    wait_loop w timeout start_time fuel k s
    = Returned Exit_timeout
        (set_reader (deliver (sleep_frames w k (S n)) (reader s)) s).
Proof.
  induction n as [|n IH]; intros fuel k s Hfuel Hnot Hinc Hout Hbefore Hat Hend;
    (destruct fuel as [|fuel]; [lia|]); cbn [wait_loop]; rewrite Hinc.
  - rewrite await_returns by (rewrite <- (Nat.add_0_r k); apply Hout; lia).
    rewrite Nat.add_0_r in Hat. rewrite Hat, Hnot.
    unfold sleep_frames. cbn [seq flat_map]. rewrite app_nil_r. reflexivity.
  - rewrite await_returns by (rewrite <- (Nat.add_0_r k); apply Hout; lia).
    rewrite Hnot.
    pose proof (Hbefore 0%nat ltac:(lia)) as H0. rewrite Nat.add_0_r in H0.
    rewrite H0. rewrite sleep_frames_cons, existsb_app in Hend.
    apply orb_false_elim in Hend. destruct Hend as [Hend0 Hend'].
    rewrite IH.
    + f_equal. rewrite (sleep_frames_cons k (S n)), deliver_app.
      destruct s; reflexivity.
    + lia.
    + exact Hnot.
    + cbn [reader set_reader]. rewrite deliver_complete, Hinc, Hend0. reflexivity.
    + intros j Hj. replace (S k + j)%nat with (k + S j)%nat by lia.
      apply Hout. lia.
    + intros j Hj. replace (S k + j)%nat with (k + S j)%nat by lia.
      apply Hbefore. lia.
    + replace (S k + n)%nat with (k + S n)%nat by lia. exact Hat.
    + exact Hend'.
Qed.

(** The wait loop makes no call on the transport. *)
Lemma wait_loop_frame (start_time : float) :
  forall (fuel k : nat) (s : session),
    match wait_loop w timeout start_time fuel k s with
    | Returned _ s' | Raised _ s' =>
        calls s' = calls s /\ connected s' = connected s
        /\ client (reader s') = client (reader s)
    | OutOfFuel => True
    end.
Proof.
  induction fuel as [|fuel IH]; intros k s; cbn [wait_loop].
  - destruct (measurement_complete (reader s)); auto.
  - destruct (measurement_complete (reader s)); [auto|].
    pose proof (await_frame (fst (w_sleep w k)) s) as Ha.
    destruct (await (fst (w_sleep w k)) s) as [[] s'|e s'|]; [|exact Ha|exact I].
    destruct (float_gt_int _ _); [exact Ha|].
    specialize (IH (S k) s').
    destruct (wait_loop w timeout start_time fuel (S k) s') as [x s''|e s''|];
      [| |exact I]; destruct Ha as (Ha1 & Ha2 & Ha3), IH as (I1 & I2 & I3);
      repeat split; congruence.
Qed.

(** The wait loop needs one unit of fuel per sleep: when the clock is beyond
    the timeout after sleep [k + n] at the latest, [n + 1] units are enough
    from iteration [k] on. *)
Lemma wait_loop_fuel :
  forall (n fuel k : nat) (s : session),
    timed_out w timeout (k + n) = true ->
    (n < fuel)%nat ->
    wait_loop w timeout (w_time0 w) fuel k s <> OutOfFuel.
Proof.
  unfold timed_out.
  induction n as [|n IH]; intros fuel k s Hat Hfuel;
    (destruct fuel as [|fuel]; [lia|]); cbn [wait_loop];
    (destruct (measurement_complete (reader s)); [discriminate|]);
    unfold await; (destruct (outcome (fst (w_sleep w k))); [discriminate|]).
  - rewrite Nat.add_0_r in Hat. rewrite Hat. discriminate.
  - destruct (float_gt_int (snd (w_sleep w k) - w_time0 w) timeout);
      [discriminate|].
    apply IH; [|lia]. replace (S k + n)%nat with (k + S n)%nat by lia. exact Hat.
Qed.

End WaitLoop.

(** C5: when subscription, command write, the sleeps and unsubscription do
    not raise, the clock first passes the timeout after sleep number n and
    no end marker has arrived until then, the wait loop is left by its
    timeout [break] and [get_temperature_data] returns without raising: it
    has called [stop_notify] once, as its last call, and returns the buffer,
    which holds the samples of all the frames that arrived before the
    timeout, in arrival order (followed by those of frames that arrived while
    unsubscribing). *)
Theorem get_temperature_data_timeout (w : world) (timeout : Z) (n fuel : nat)
    (s0 : session) :
  measurement_complete (reader s0) = false ->
  outcome (w_start_notify w) = None ->
  outcome (w_write w) = None ->
  outcome (w_stop_notify w) = None ->
  (forall k, (k <= n)%nat -> outcome (fst (w_sleep w k)) = None) ->
  (forall k, (k < n)%nat -> timed_out w timeout k = false) ->
  timed_out w timeout n = true ->
  existsb is_end_marker (frames_until w n) = false ->
  (n < fuel)%nat ->
  exists s1 s2,
    wait_for_completion w fuel timeout s0 = Returned Exit_timeout s1
    /\ data_buffer (reader s1)
       = data_buffer (reader s0) ++ decoded (frames_until w n)
    /\ get_temperature_data w fuel timeout s0
       = Returned (data_buffer (reader s1) ++ decoded (arrivals (w_stop_notify w)))
                  s2
    /\ data_buffer (reader s2)
       = data_buffer (reader s1) ++ decoded (arrivals (w_stop_notify w))
    /\ calls s2
       = calls s0 ++ [Call_start_notify READ_CHAR_UUID;
                      Call_write_gatt_char WRITE_CHAR_UUID GETDATA_LF;
                      Call_stop_notify READ_CHAR_UUID]
    /\ notifying s2 = false.
Proof.
  intros Hinc Hstart Hwrite Hstop Hsleep Hbefore Hat Hend Hfuel.
  unfold frames_until in *. rewrite !existsb_app in Hend.
  apply orb_false_elim in Hend. destruct Hend as [Hend1 Hend].
  apply orb_false_elim in Hend. destruct Hend as [Hend2 Hend3].
  set (sa := set_reader (deliver (arrivals (w_start_notify w)) (reader s0))
               (set_notifying true
                  (record_call (Call_start_notify READ_CHAR_UUID) s0))).
  set (sb := set_reader (deliver (arrivals (w_write w)) (reader sa))
               (record_call (Call_write_gatt_char WRITE_CHAR_UUID GETDATA_LF) sa)).
  set (s1 := set_reader (deliver (sleep_frames w 0 (S n)) (reader sb)) sb).
  set (s2 := set_notifying false
               (set_reader (deliver (arrivals (w_stop_notify w)) (reader s1))
                  (record_call (Call_stop_notify READ_CHAR_UUID) s1))).
  assert (Ha : setup_notification w s0 = Returned tt sa).
  { unfold setup_notification. rewrite Hstart.
    rewrite await_returns by exact Hstart. reflexivity. }
  assert (Hb : send_command w "GETDATA" sa = Returned tt sb).
  { unfold send_command. rewrite await_returns by exact Hwrite. reflexivity. }
  assert (Hl : wait_loop w timeout (w_time0 w) fuel 0 sb = Returned Exit_timeout s1).
  { apply wait_loop_timeout; try assumption.
    - reflexivity.
    - subst sb sa. cbn [reader set_reader].
      rewrite !deliver_complete, Hinc, Hend1, Hend2. reflexivity. }
  assert (Hs : stop_notify w s1 = Returned tt s2).
  { unfold stop_notify. rewrite await_returns by exact Hstop. reflexivity. }
  assert (Hbuf1 : data_buffer (reader s1)
                  = data_buffer (reader s0)
                    ++ decoded (arrivals (w_start_notify w) ++ arrivals (w_write w)
                                ++ sleep_frames w 0 (S n))).
  { subst s1 sb sa. cbn [reader set_reader].
    rewrite !deliver_buffer, !decoded_app, <- !app_assoc. reflexivity. }
  assert (Hbuf2 : data_buffer (reader s2)
                  = data_buffer (reader s1) ++ decoded (arrivals (w_stop_notify w))).
  { subst s2. cbn [reader set_reader set_notifying]. apply deliver_buffer. }
  exists s1, s2.
  split; [unfold wait_for_completion, cbind; rewrite Ha, Hb; exact Hl|].
  split; [exact Hbuf1|].
  split; [unfold get_temperature_data, cbind; rewrite Ha, Hb, Hl, Hs, Hbuf2;
          reflexivity|].
  split; [exact Hbuf2|].
  split; [|reflexivity].
  subst s2 s1 sb sa. cbn [calls set_reader set_notifying record_call].
  rewrite <- !app_assoc. reflexivity.
Qed.

Lemma get_temperature_data_timeout_witness :
  exists s1 s2,
    wait_for_completion world_timeout 3 60 (session_of (init DEVICE_ADDRESS))
    = Returned Exit_timeout s1
    /\ data_buffer (reader s1)
       = data_buffer (reader (session_of (init DEVICE_ADDRESS)))
         ++ decoded (frames_until world_timeout 2)
    /\ get_temperature_data world_timeout 3 60 (session_of (init DEVICE_ADDRESS))
       = Returned (data_buffer (reader s1)
                   ++ decoded (arrivals (w_stop_notify world_timeout))) s2
    /\ data_buffer (reader s2)
       = data_buffer (reader s1) ++ decoded (arrivals (w_stop_notify world_timeout))
    /\ calls s2
       = calls (session_of (init DEVICE_ADDRESS))
         ++ [Call_start_notify READ_CHAR_UUID;
             Call_write_gatt_char WRITE_CHAR_UUID GETDATA_LF;
             Call_stop_notify READ_CHAR_UUID]
    /\ notifying s2 = false.
Proof.
  apply (get_temperature_data_timeout world_timeout 60 2 3
           (session_of (init DEVICE_ADDRESS))).
  - reflexivity.
  - reflexivity.
  - reflexivity.
  - reflexivity.
  - intros k Hk. destruct k as [|[|[|k]]]; [reflexivity | reflexivity | reflexivity | lia].
  - intros k Hk. destruct k as [|[|k]]; [vm_compute; reflexivity | vm_compute; reflexivity | lia].
  - vm_compute. reflexivity.
  - vm_compute. reflexivity.
  - lia.
Defined.

(** ** Teardown *)

Lemma attempts_app (kind : call -> bool) (cs ds : list call) :
  attempts kind (cs ++ ds) = (attempts kind cs + attempts kind ds)%nat.
Proof. unfold attempts. rewrite filter_app, length_app. reflexivity. Qed.

(** Reading the fields of a session through the steps that built it. *)
Ltac session_fields :=
  repeat first
    [ progress cbn [calls connected reader client notifying csv_file
                    set_notifying set_reader set_connected record_call
                    set_csv_file session_of set_client init]
    | rewrite (proj1 (handle_arrivals_frame _ _))
    | rewrite (proj1 (proj2 (handle_arrivals_frame _ _)))
    | rewrite (proj2 (proj2 (handle_arrivals_frame _ _))) ].

Lemma main_body_final (w : world) (fuel : nat) (device : string) (s' : session) :
  final_session (main_body w fuel (session_of (init device))) = Some s' ->
  is_None (client (reader s')) = false
  /\ connected s' = is_None (w_connect w)
  /\ attempts is_disconnect (calls s') = 0%nat
  /\ attempts is_stop_notify (calls s')
     = match session_until_exit w fuel device with
       | Returned _ _ => 1%nat
       | _ => 0%nat
       end.
Proof.
  unfold main_body, session_until_exit, wait_for_completion, get_temperature_data,
    cbind, connect, setup_notification, send_command, stop_notify, await.
  cbn [reader set_reader record_call session_of calls app address init set_client outcome].
  destruct (w_connect w) as [e|] eqn:Hconn.
  { intros [= <-]. cbn. auto. }
  destruct (w_sleep1 w) as [e|] eqn:Hsleep.
  { intros [= <-]. session_fields. cbn. auto. }
  destruct (outcome (w_start_notify w)) as [e|] eqn:Hstart.
  { intros [= <-]. session_fields. cbn. auto. }
  match goal with
  | |- context [Returned tt (handle_arrivals (w_write w) ?s)] =>
      set (sb := handle_arrivals (w_write w) s)
  end.
  assert (Hsb : calls sb
                = [Call_connect; Call_start_notify READ_CHAR_UUID;
                   Call_write_gatt_char WRITE_CHAR_UUID GETDATA_LF]
                /\ connected sb = true
                /\ is_None (client (reader sb)) = false).
  { subst sb. session_fields. auto. }
  destruct Hsb as (Hcalls & Hconnected & Hclient). clearbody sb.
  destruct (outcome (w_write w)) as [e|] eqn:Hwrite.
  { intros [= <-]. rewrite Hcalls, Hconnected, Hclient. cbn. auto. }
  pose proof (wait_loop_frame w 60 (w_time0 w) fuel 0 sb) as Hframe.
  destruct (wait_loop w 60 (w_time0 w) fuel 0 sb) as [x sl|e sl|];
    [| |discriminate].
  - destruct Hframe as (Hc & Hn & Hcl).
    destruct (outcome (w_stop_notify w)) as [e|] eqn:Hstop.
    { intros [= <-]. session_fields. rewrite Hc, Hn, Hcl, Hcalls, Hconnected, Hclient.
      cbn. auto. }
    set (s2 := set_notifying false
                 (handle_arrivals (w_stop_notify w)
                    (record_call (Call_stop_notify READ_CHAR_UUID) sl))).
    assert (Hs2 : calls s2 = calls sb ++ [Call_stop_notify READ_CHAR_UUID]
                  /\ connected s2 = true
                  /\ is_None (client (reader s2)) = false).
    { subst s2. session_fields. rewrite Hc, Hn, Hcl. auto. }
    destruct Hs2 as (Hc2 & Hn2 & Hcl2). rewrite Hcalls in Hc2. clearbody s2.
    destruct (data_buffer (reader s2)) as [|d ds].
    { intros [= <-]. rewrite Hc2, Hn2, Hcl2. cbn. auto. }
    unfold lift, save_to_csv. cbn beta.
    destruct (generate_csv_data (reader s2)) as [[|row rows]|e];
      [| destruct (w_save w) |];
      intros [= <-]; session_fields; rewrite Hc2, Hn2, Hcl2; cbn; auto.
  - destruct Hframe as (Hc & Hn & Hcl).
    intros [= <-]. rewrite Hc, Hn, Hcl, Hcalls, Hconnected, Hclient. cbn. auto.
Qed.

Lemma final_try_except (body : coro unit) (s : session) :
  final_session (try_except_Exception body s) = final_session (body s).
Proof.
  unfold try_except_Exception.
  destruct (body s) as [x s'|e s'|]; [reflexivity | | reflexivity].
  destruct (is_Exception e); reflexivity.
Qed.

Lemma final_try_finally {A : Type} (body : coro A) (fin : coro unit) (s : session) :
  final_session (try_finally body fin s)
  = match final_session (body s) with
    | Some s' => final_session (fin s')
    | None => None
    end.
Proof.
  unfold try_finally.
  destruct (body s) as [x s'|e s'|]; [| |reflexivity];
    cbn [final_session]; destruct (fin s') as [y s''|e' s''|]; reflexivity.
Qed.

(** [HalshareReader.disconnect] attempts the transport's disconnect when
    there is a client that is still connected, and then only. *)
Lemma disconnect_final (w : world) (s' s : session) :
  final_session (disconnect w s') = Some s ->
  calls s
  = calls s' ++ (if negb (is_None (client (reader s'))) && connected s'
                    && w_link_alive w
                 then [Call_disconnect] else []).
Proof.
  unfold disconnect, await.
  destruct (client (reader s')) as [c|]; cbn [is_None negb andb].
  - destruct (connected s' && w_link_alive w).
    + cbn [outcome]. destruct (w_disconnect w); intros [= <-]; session_fields;
        reflexivity.
    + intros [= <-]. rewrite app_nil_r. reflexivity.
  - intros [= <-]. rewrite app_nil_r. reflexivity.
Qed.

(** C6, the claim as stated fails: when the device rejects the subscription,
    [main] catches the error and returns having called [connect],
    [start_notify] and [disconnect]; the unsubscription is not attempted.
    So it is not the case that every exit path attempts the unsubscription
    and the disconnect exactly once each. *)
Lemma main_subscribe_error_no_unsubscribe :
  (exists s,
      main world_subscribe_fails 0 = Returned tt s
      /\ calls s = [Call_connect; Call_start_notify READ_CHAR_UUID; Call_disconnect]
      /\ attempts is_stop_notify (calls s) = 0%nat)
  /\ ~ (forall w fuel s,
          final_session (main w fuel) = Some s ->
          attempts is_stop_notify (calls s) = 1%nat
          /\ attempts is_disconnect (calls s) = 1%nat).
Proof.
  split.
  - eexists. split; [vm_compute; reflexivity|]. split; reflexivity.
  - intros H.
    edestruct (H world_subscribe_fails 0%nat) as [Hstop _];
      [vm_compute; reflexivity|].
    vm_compute in Hstop. discriminate.
Qed.

(** What the calls of a finished run of [main] are, by exit path. *)
Lemma main_final_calls (w : world) (fuel : nat) (s : session) :
  final_session (main w fuel) = Some s ->
  attempts is_disconnect (calls s)
  = (if is_None (w_connect w) && w_link_alive w then 1 else 0)%nat
  /\ (is_None (w_connect w) && w_link_alive w = true ->
      exists cs, calls s = cs ++ [Call_disconnect])
  /\ (forall exit s1,
         session_until_exit w fuel DEVICE_ADDRESS = Returned exit s1 ->
         attempts is_stop_notify (calls s) = 1%nat)
  /\ (forall e s1,
         session_until_exit w fuel DEVICE_ADDRESS = Raised e s1 ->
         attempts is_stop_notify (calls s) = 0%nat).
Proof.
  unfold main, main_on. cbv zeta.
  rewrite final_try_finally, final_try_except.
  destruct (final_session (main_body w fuel (session_of (init DEVICE_ADDRESS))))
    as [s'|] eqn:Hbody; [|discriminate].
  intros Hfin. apply disconnect_final in Hfin.
  apply main_body_final in Hbody.
  destruct Hbody as (Hclient & Hconnected & Hdisc & Hstop).
  rewrite Hclient, Hconnected in Hfin. cbn [negb andb] in Hfin.
  assert (Hstop' : attempts is_stop_notify (calls s)
                   = attempts is_stop_notify (calls s')).
  { rewrite Hfin, attempts_app.
    destruct (is_None (w_connect w) && w_link_alive w); cbn; lia. }
  split; [|split; [|split]].
  - rewrite Hfin, attempts_app, Hdisc.
    destruct (is_None (w_connect w) && w_link_alive w); reflexivity.
  - intros Hup. rewrite Hup in Hfin. exists (calls s'). exact Hfin.
  - intros exit s1 Hexit. rewrite Hstop', Hstop, Hexit. reflexivity.
  - intros e s1 Hexit. rewrite Hstop', Hstop, Hexit. reflexivity.
Qed.

Lemma final_session_None {A : Type} (r : sresult A) :
  final_session r = None -> r = OutOfFuel.
Proof. destruct r; [discriminate | discriminate | reflexivity]. Qed.

(** The body of [main] runs out of fuel only in its wait loop. *)
Lemma main_body_fuel (w : world) (fuel : nat) (device : string) :
  final_session (main_body w fuel (session_of (init device))) = None ->
  exists sb, wait_loop w 60 (w_time0 w) fuel 0 sb = OutOfFuel.
Proof.
  unfold main_body, get_temperature_data, cbind, connect, setup_notification,
    send_command, stop_notify, await.
  destruct (w_connect w); [discriminate|].
  cbn [outcome]. destruct (w_sleep1 w); [discriminate|].
  destruct (outcome (w_start_notify w)); [discriminate|].
  destruct (outcome (w_write w)); [discriminate|].
  match goal with
  | |- context [wait_loop w 60 (w_time0 w) fuel 0 ?s] =>
      destruct (wait_loop w 60 (w_time0 w) fuel 0 s) as [x sl|e sl|] eqn:Hloop
  end; [|discriminate|intros _; eexists; exact Hloop].
  destruct (outcome (w_stop_notify w)); [discriminate|].
  match goal with
  | |- context [match ?l with [] => _ | _ :: _ => _ end] => destruct l
  end; [discriminate|].
  unfold lift, save_to_csv. cbn beta.
  destruct (generate_csv_data _) as [[|row rows]|e];
    [discriminate | destruct (w_save w); discriminate | discriminate].
Qed.

(** [main] ends as soon as the clock passes the timeout of 60. *)
Lemma main_ends (w : world) (fuel n : nat) :
  timed_out w 60 n = true ->
  (n < fuel)%nat ->
  exists s, final_session (main w fuel) = Some s.
Proof.
  intros Hat Hfuel. unfold main, main_on. cbv zeta.
  rewrite final_try_finally, final_try_except.
  destruct (final_session (main_body w fuel (session_of (init DEVICE_ADDRESS))))
    as [s'|] eqn:Hbody.
  - unfold disconnect, await.
    destruct (client (reader s')); [|eexists; reflexivity].
    destruct (connected s' && w_link_alive w); [|eexists; reflexivity].
    cbn [outcome]. destruct (w_disconnect w); eexists; reflexivity.
  - apply main_body_fuel in Hbody. destruct Hbody as [sb Hloop].
    exfalso. revert Hloop. apply (wait_loop_fuel w 60 n); assumption.
Qed.

(** C6, amended: [main] returns control once the clock has passed the
    timeout, at the latest.  On every exit path the transport's disconnect
    is attempted exactly once, as the last call, when the connection was
    established and the link is still up, and not at all otherwise; the
    unsubscription is attempted exactly once when the wait loop is left by
    completion or by timeout, and not at all when connecting, the
    subscription, the command write or the wait loop raises. *)
Theorem main_teardown (w : world) (fuel n : nat) :
  timed_out w 60 n = true ->
  (n < fuel)%nat ->
  exists s,
    final_session (main w fuel) = Some s
    /\ attempts is_disconnect (calls s)
       = (if is_None (w_connect w) && w_link_alive w then 1 else 0)%nat
    /\ (is_None (w_connect w) && w_link_alive w = true ->
        exists cs, calls s = cs ++ [Call_disconnect])
    /\ (forall exit s1,
           session_until_exit w fuel DEVICE_ADDRESS = Returned exit s1 ->
           attempts is_stop_notify (calls s) = 1%nat)
    /\ (forall e s1,
           session_until_exit w fuel DEVICE_ADDRESS = Raised e s1 ->
           attempts is_stop_notify (calls s) = 0%nat).
Proof.
  intros Hat Hfuel.
  destruct (main_ends w fuel n Hat Hfuel) as [s Hs].
  exists s. split; [exact Hs|]. apply main_final_calls. exact Hs.
Qed.

Lemma main_teardown_witness :
  exists s,
    final_session (main world_timeout 3) = Some s
    /\ attempts is_disconnect (calls s) = 1%nat
    /\ attempts is_stop_notify (calls s) = 1%nat.
Proof.
  destruct (main_teardown world_timeout 3 2) as (s & Hs & Hd & _ & Hstop & _).
  - vm_compute. reflexivity.
  - lia.
  - exists s. split; [exact Hs|]. split; [exact Hd|].
    eapply Hstop. vm_compute. reflexivity.
Defined.

(** ** The scenario of the specification, end to end

    The frames 05 28, 0A 30 and EN arrive in that order, the last one at
    2024-01-01 10:00:00: the samples are (5, 27.5) and (10, 28.0), the records
    09:50:00 -> 27.5 and 10:00:00 -> 28.0. *)
Example end_to_end :
  let self :=
    deliver [ (mk_datetime 2024 1 1 9 59 58, [x05; x28]);
              (mk_datetime 2024 1 1 9 59 59, [x0a; x30]);
              (mk_datetime 2024 1 1 10 0 0, [x45; x4e]) ]
            (init DEVICE_ADDRESS) in
  data_buffer self = [Sample.mk 5 27.5 40; Sample.mk 10 28 48]
  /\ measurement_complete self = true
  /\ generate_csv_data self
     = Ok [ CsvRow.mk "test" DEVICE_ADDRESS "2024/01/01 09:50:00" 27.5;
            CsvRow.mk "test" DEVICE_ADDRESS "2024/01/01 10:00:00" 28 ].
Proof. vm_compute. repeat split; reflexivity. Qed.

(** * Further properties of the code *)

(** ** The temperature codec keeps the order of the bytes *)

Lemma codec_order_check_all :
  forallb (fun a => forallb (codec_order_check a) (map Z.of_nat (seq 0 256)))
          (map Z.of_nat (seq 0 256)) = true.
Proof. vm_compute. reflexivity. Qed.

(** X1: on bytes the codec is strictly increasing: a larger raw byte is
    decoded to a larger temperature, so distinct bytes never share a
    temperature. *)
Theorem calculate_temperature_increasing (a b : Z) :
  0 <= a -> a < b -> b <= 255 ->
  exists ta tb,
    calculate_temperature a = Ok ta /\ calculate_temperature b = Ok tb
    /\ (ta <? tb)%float = true.
Proof.
  intros Ha Hab Hb. pose proof codec_order_check_all as H.
  rewrite forallb_forall in H.
  specialize (H a (In_Z_below_256 a ltac:(lia))).
  rewrite forallb_forall in H.
  specialize (H b (In_Z_below_256 b ltac:(lia))).
  unfold codec_order_check in H.
  destruct (Z.ltb_spec a b) as [_|Hge]; [|lia].
  destruct (calculate_temperature a) as [ta|]; [|discriminate].
  destruct (calculate_temperature b) as [tb|]; [|discriminate].
  exists ta, tb. repeat split. exact H.
Qed.

Lemma calculate_temperature_increasing_witness :
  exists ta tb,
    calculate_temperature 40 = Ok ta /\ calculate_temperature 48 = Ok tb
    /\ (ta <? tb)%float = true.
Proof.
  apply (calculate_temperature_increasing 40 48); lia.
Defined.

(** ** The callback over a sequence of frames *)

Lemma for_each_handler (frames : list (datetime * list byte)) :
  forall self,
    for_each frames
      (fun frame self => notification_handler (fst frame) (snd frame) self) self
    = Ok (deliver frames self).
Proof.
  induction frames as [|f frames IH]; intros self; [reflexivity|].
  cbn [for_each]. rewrite notification_handler_total. cbn [bind].
  rewrite IH. unfold deliver. cbn [fold_left].
  rewrite on_frame_spec. reflexivity.
Qed.

Lemma on_frame_address (self : HalshareReader) (frame : datetime * list byte) :
  address (on_frame self frame) = address self.
Proof. rewrite on_frame_spec. destruct (is_end_marker frame); reflexivity. Qed.

Lemma deliver_address (fs : list (datetime * list byte)) :
  forall self, address (deliver fs self) = address self.
Proof.
  induction fs as [|f fs IH]; intros self; simpl; [reflexivity|].
  unfold deliver in IH. rewrite IH. apply on_frame_address.
Qed.

Lemma on_frame_time (self : HalshareReader) (frame : datetime * list byte) :
  data_acquisition_time (on_frame self frame)
  = if is_end_marker frame then Some (fst frame) else data_acquisition_time self.
Proof. rewrite on_frame_spec. destruct (is_end_marker frame); reflexivity. Qed.

Lemma last_end_marker_from (fs : list (datetime * list byte)) :
  forall acc,
    fold_left (fun acc frame =>
                 if is_end_marker frame then Some (fst frame) else acc) fs acc
    = match last_end_marker fs with Some t => Some t | None => acc end.
Proof.
  unfold last_end_marker.
  induction fs as [|f fs IH]; intros acc; cbn [fold_left]; [reflexivity|].
  rewrite IH. rewrite (IH (if is_end_marker f then Some (fst f) else None)).
  destruct (fold_left _ fs None); [reflexivity|].
  destruct (is_end_marker f); reflexivity.
Qed.

Lemma deliver_time (fs : list (datetime * list byte)) :
  forall self,
    data_acquisition_time (deliver fs self)
    = match last_end_marker fs with
      | Some t => Some t
      | None => data_acquisition_time self
      end.
Proof.
  intros self. rewrite <- last_end_marker_from. revert self.
  induction fs as [|f fs IH]; intros self; [reflexivity|].
  unfold deliver in *. cbn [fold_left]. rewrite IH, on_frame_time. reflexivity.
Qed.

Lemma last_end_marker_None (fs : list (datetime * list byte)) :
  last_end_marker fs = None <-> existsb is_end_marker fs = false.
Proof.
  unfold last_end_marker.
  induction fs as [|f fs IH]; cbn [fold_left existsb]; [tauto|].
  rewrite last_end_marker_from.
  destruct (is_end_marker f); cbn [orb].
  - destruct (last_end_marker fs); split; discriminate.
  - unfold last_end_marker in *. destruct (fold_left _ fs None); exact IH.
Qed.

(** X2: whatever frames arrive, in whatever order, the callback never raises;
    it only appends to the buffer (the samples of the frames, in arrival
    order, also those that arrive after an end marker), the completion flag
    is set exactly when an end marker has arrived (and is never reset), the
    completion time is the arrival time of the most recent end marker, and
    the address and the client are left alone. *)
Theorem notification_handler_sequence (frames : list (datetime * list byte))
    (self : HalshareReader) :
  exists self',
    for_each frames
      (fun frame self => notification_handler (fst frame) (snd frame) self) self
    = Ok self'
    /\ data_buffer self' = data_buffer self ++ decoded frames
    /\ measurement_complete self'
       = measurement_complete self || existsb is_end_marker frames
    /\ data_acquisition_time self'
       = match last_end_marker frames with
         | Some t => Some t
         | None => data_acquisition_time self
         end
    /\ address self' = address self
    /\ client self' = client self.
Proof.
  exists (deliver frames self).
  split; [apply for_each_handler|].
  split; [apply deliver_buffer|].
  split; [apply deliver_complete|].
  split; [apply deliver_time|].
  split; [apply deliver_address | apply deliver_client].
Qed.

Lemma samples_of_frame_decoded (data : list byte) :
  Forall sample_decoded (samples_of_frame data).
Proof.
  unfold samples_of_frame.
  destruct (startswith data b_EN); [constructor|].
  destruct ((len data >=? 2) && (len data mod 2 =? 0)); [|constructor].
  unfold frame_samples. apply Forall_forall. intros s Hs.
  apply in_map_iff in Hs. destruct Hs as (k & <- & _).
  unfold sample_decoded, sample_at.
  cbn [Sample.interval Sample.raw_temp_byte Sample.temperature].
  split; [apply byte_int_range|]. split; [apply byte_int_range|].
  apply calculate_temperature_of_byte.
Qed.

Lemma decoded_samples_decoded (frames : list (datetime * list byte)) :
  Forall sample_decoded (decoded frames).
Proof.
  unfold decoded. induction frames as [|f frames IH]; [constructor|].
  cbn [flat_map]. apply Forall_app. split; [apply samples_of_frame_decoded | exact IH].
Qed.

(** X3: the callback keeps the buffer well formed: when every sample of the
    buffer has an interval and a raw byte in 0..255 and the temperature the
    codec gives for its raw byte, the same holds after any sequence of
    frames, and every temperature lies between 25.0 and 40.9375. *)
Theorem notification_handler_keeps_samples_decoded
    (frames : list (datetime * list byte)) (self self' : HalshareReader) :
  Forall sample_decoded (data_buffer self) ->
  for_each frames
    (fun frame self => notification_handler (fst frame) (snd frame) self) self
  = Ok self' ->
  Forall sample_decoded (data_buffer self')
  /\ Forall (fun s => (25 <=? Sample.temperature s)%float = true
                      /\ (Sample.temperature s <=? 40.9375)%float = true)
            (data_buffer self').
Proof.
  intros Hwf Hrun. rewrite for_each_handler in Hrun. injection Hrun as <-.
  assert (H : Forall sample_decoded (data_buffer (deliver frames self))).
  { rewrite deliver_buffer. apply Forall_app.
    split; [exact Hwf | apply decoded_samples_decoded]. }
  split; [exact H|].
  eapply Forall_impl; [|exact H].
  intros s (_ & Hraw & Ht).
  destruct (calculate_temperature_byte _ Hraw) as (t & q & Ht' & _ & _ & _ & _ & Hlo & Hhi).
  rewrite Ht in Ht'. injection Ht' as <-. split; assumption.
Qed.

Lemma notification_handler_keeps_samples_decoded_witness :
  Forall sample_decoded
    (data_buffer (deliver [(0, [x05; x28]); (1, [x45; x4e]); (2, [x0a; x30])]
                          (init DEVICE_ADDRESS)))
  /\ Forall (fun s => (25 <=? Sample.temperature s)%float = true
                      /\ (Sample.temperature s <=? 40.9375)%float = true)
            (data_buffer (deliver [(0, [x05; x28]); (1, [x45; x4e]); (2, [x0a; x30])]
                                  (init DEVICE_ADDRESS))).
Proof.
  apply (notification_handler_keeps_samples_decoded
           [(0, [x05; x28]); (1, [x45; x4e]); (2, [x0a; x30])]
           (init DEVICE_ADDRESS)).
  - constructor.
  - apply for_each_handler.
Defined.

(** ** The exceptions of the reconstruction *)

Lemma datetime_step_overflow (cur m : Z) :
  datetime_in_range (cur - m * US_PER_MINUTE) = false ->
  (delta <- timedelta_minutes m ;; datetime_sub cur delta) = Raise OverflowError.
Proof.
  intros Hr. unfold timedelta_minutes.
  destruct (timedelta_in_range (m * US_PER_MINUTE)); [|reflexivity].
  cbn [bind]. unfold datetime_sub.
  destruct (timedelta_in_range (- (m * US_PER_MINUTE))); [|reflexivity].
  rewrite Hr. reflexivity.
Qed.

Lemma forallb_app_last {A : Type} (f : A -> bool) (l : list A) (x : A) :
  forallb f (l ++ [x]) = forallb f l && f x.
Proof. rewrite forallb_app. cbn [forallb]. rewrite andb_true_r. reflexivity. Qed.

(** The loop of [generate_csv_data] from a representable time: it goes
    through when every stamp is representable, and raises [OverflowError],
    and nothing else, when one is not. *)
Lemma csv_loop_exact (self : HalshareReader) (older : list Sample.t) :
  forall (newer : list Sample.t) (acc : list CsvRow.t) (cur : datetime),
    data_buffer self = older ++ newer ->
    datetime_in_range cur = true ->
    match for_each (rev (map Z.of_nat (seq 0 (List.length older))))
                   (csv_loop_body self) (acc, cur) with
    | Ok (rows, _) =>
        forallb datetime_in_range (stamps cur older) = true
        /\ rows = acc ++ rev (reconstruct (address self) cur older)
    | Raise e =>
        forallb datetime_in_range (stamps cur older) = false
        /\ e = OverflowError
    end.
Proof.
  induction older as [|s older IH] using rev_ind; intros newer acc cur Hbuf Hcur.
  - simpl. rewrite app_nil_r. split; reflexivity.
  - rewrite length_app, Nat.add_comm. cbn [List.length plus].
    rewrite seq_S, map_app, rev_app_distr. cbn [map rev app plus for_each].
    unfold csv_loop_body at 1.
    rewrite (getitem_nth (data_buffer self) (List.length older) s)
      by (rewrite Hbuf, !length_app; simpl; lia).
    rewrite Hbuf, <- app_assoc. cbn [app]. rewrite nth_middle. cbn [bind].
    rewrite stamps_snoc, forallb_app_last, Hcur, andb_true_r.
    rewrite reconstruct_snoc, rev_app_distr. cbn [rev app].
    destruct older as [|s0 older].
    + cbn. split; reflexivity.
    + replace (Z.of_nat (List.length (s0 :: older)) >? 0) with true
        by (symmetry; apply Z.gtb_lt; simpl; lia).
      destruct (datetime_in_range (cur - Sample.interval s * US_PER_MINUTE))
        eqn:Hcur'.
      * pose proof (datetime_step cur (Sample.interval s) Hcur Hcur') as Hstep.
        destruct (timedelta_minutes (Sample.interval s)) as [delta|e];
          [|discriminate]. cbn [bind] in Hstep |- *. rewrite Hstep. cbn [bind].
        specialize (IH ([s] ++ newer)
                       (acc ++ [record_of (address self) cur s])
                       (cur - Sample.interval s * US_PER_MINUTE)).
        rewrite Hbuf, <- app_assoc in IH. specialize (IH eq_refl Hcur').
        unfold record_of in IH at 1.
        destruct (for_each _ _ _) as [[rows cur'']|e]; [|exact IH].
        destruct IH as [Hall ->]. split; [exact Hall|].
        rewrite <- app_assoc. reflexivity.
      * pose proof (datetime_step_overflow cur (Sample.interval s) Hcur') as Hstep.
        destruct (timedelta_minutes (Sample.interval s)) as [delta|e].
        -- cbn [bind] in Hstep |- *. rewrite Hstep. cbn [bind].
           split; [|reflexivity].
           destruct (forallb datetime_in_range
                       (stamps (cur - Sample.interval s * US_PER_MINUTE)
                               (s0 :: older))) eqn:Hall; [|reflexivity].
           rewrite forallb_forall in Hall.
           rewrite (Hall _ (stamps_In_last _ (s0 :: older) ltac:(discriminate)))
             in Hcur'. discriminate.
        -- cbn [bind] in Hstep |- *. injection Hstep as ->.
           split; [|reflexivity].
           destruct (forallb datetime_in_range
                       (stamps (cur - Sample.interval s * US_PER_MINUTE)
                               (s0 :: older))) eqn:Hall; [|reflexivity].
           rewrite forallb_forall in Hall.
           rewrite (Hall _ (stamps_In_last _ (s0 :: older) ltac:(discriminate)))
             in Hcur'. discriminate.
Qed.

(** X4: with a completion time that is a datetime, [generate_csv_data]
    returns the reconstructed records when every stamp is a datetime, and
    raises [OverflowError] when the walk back leaves the range of datetime;
    it raises no other exception (no [IndexError]). *)
Theorem generate_csv_data_overflow (self : HalshareReader) (T : datetime) :
  data_acquisition_time self = Some T ->
  datetime_in_range T = true ->
  generate_csv_data self
  = if forallb datetime_in_range (stamps T (data_buffer self))
    then Ok (reconstruct (address self) T (data_buffer self))
    else Raise OverflowError.
Proof.
  intros HT Hrange. unfold generate_csv_data. rewrite HT.
  destruct (data_buffer self) as [|s0 buf] eqn:Hbuf; [reflexivity|].
  rewrite <- Hbuf in *. unfold len. rewrite py_range_down.
  pose proof (csv_loop_exact self (data_buffer self) [] [] T
                (eq_sym (app_nil_r _)) Hrange) as Hloop.
  destruct (for_each _ _ _) as [[rows cur']|e].
  - destruct Hloop as [-> ->]. cbn [bind app]. rewrite rev_involutive. reflexivity.
  - destruct Hloop as [-> ->]. reflexivity.
Qed.

(** Five minutes after [datetime.min], a second sample taken ten minutes
    after the first cannot be walked back. *)
Lemma generate_csv_data_overflow_witness :
  generate_csv_data
    (mkReader DEVICE_ADDRESS None [Sample.mk 0 27.5 40; Sample.mk 10 28 48] true
              (Some (mk_datetime 1 1 1 0 5 0)))
  = Raise OverflowError.
Proof.
  exact (generate_csv_data_overflow
           (mkReader DEVICE_ADDRESS None [Sample.mk 0 27.5 40; Sample.mk 10 28 48]
                     true (Some (mk_datetime 1 1 1 0 5 0)))
           (mk_datetime 1 1 1 0 5 0) eq_refl eq_refl).
Defined.

(** ** The completion path of the acquisition *)

Section Completion.

Variable w : world.
Variable timeout : Z.

(** The wait loop entered at iteration [k] without a completion: when an end
    marker arrives during sleep [k + n], and not before, and the clock has
    not passed the timeout by then, the loop is left because its condition
    fails, with the frames of these sleeps handled in order. *)
Lemma wait_loop_completion (start_time : float) :
  forall (n fuel k : nat) (s : session),
    (n < fuel)%nat ->
    notifying s = true ->
    measurement_complete (reader s) = false ->
    (forall j, (j <= n)%nat -> outcome (fst (w_sleep w (k + j))) = None) ->
    (forall j, (j <= n)%nat ->
       float_gt_int (snd (w_sleep w (k + j)) - start_time)%float timeout = false) ->
    existsb is_end_marker (sleep_frames w k n) = false ->
    existsb is_end_marker (arrivals (fst (w_sleep w (k + n)))) = true ->
    wait_loop w timeout start_time fuel k s
    = Returned Exit_complete
        (set_reader (deliver (sleep_frames w k (S n)) (reader s)) s).
Proof.
  induction n as [|n IH]; intros fuel k s Hfuel Hnot Hinc Hout Hbefore Hno Hend;
    (destruct fuel as [|fuel]; [lia|]); cbn [wait_loop]; rewrite Hinc;
    rewrite await_returns by (rewrite <- (Nat.add_0_r k); apply Hout; lia);
    rewrite Hnot;
    pose proof (Hbefore 0%nat ltac:(lia)) as H0; rewrite Nat.add_0_r in H0;
    rewrite H0.
  - rewrite Nat.add_0_r in Hend.
    unfold sleep_frames. cbn [seq flat_map]. rewrite app_nil_r.
    destruct fuel; cbn [wait_loop reader set_reader];
      rewrite deliver_complete, Hend, orb_true_r; reflexivity.
  - rewrite sleep_frames_cons, existsb_app in Hno.
    apply orb_false_elim in Hno. destruct Hno as [Hno0 Hno'].
    rewrite IH.
    + f_equal. rewrite (sleep_frames_cons w k (S n)), deliver_app.
      destruct s; reflexivity.
    + lia.
    + exact Hnot.
    + cbn [reader set_reader]. rewrite deliver_complete, Hinc, Hno0. reflexivity.
    + intros j Hj. replace (S k + j)%nat with (k + S j)%nat by lia.
      apply Hout. lia.
    + intros j Hj. replace (S k + j)%nat with (k + S j)%nat by lia.
      apply Hbefore. lia.
    + exact Hno'.
    + replace (S k + n)%nat with (k + S n)%nat by lia. exact Hend.
Qed.

End Completion.

(** X5: when subscription, command write, the sleeps and unsubscription do
    not raise, the first end marker arrives during sleep number n and the
    clock has not passed the timeout by then, the wait loop is left because
    the measurement is complete, and [get_temperature_data] returns without
    raising: the reader is marked complete, its completion time is the
    arrival time of the last end marker received, [stop_notify] was called
    once, as the last call, and the buffer returned holds the samples of all
    the frames received, in arrival order. *)
Theorem get_temperature_data_completion (w : world) (timeout : Z) (n fuel : nat)
    (s0 : session) :
  measurement_complete (reader s0) = false ->
  outcome (w_start_notify w) = None ->
  outcome (w_write w) = None ->
  outcome (w_stop_notify w) = None ->
  (forall k, (k <= n)%nat -> outcome (fst (w_sleep w k)) = None) ->
  (forall k, (k <= n)%nat -> timed_out w timeout k = false) ->
  existsb is_end_marker
    (arrivals (w_start_notify w) ++ arrivals (w_write w) ++ sleep_frames w 0 n)
  = false ->
  existsb is_end_marker (arrivals (fst (w_sleep w n))) = true ->
  (n < fuel)%nat ->
  exists s1 s2,
    wait_for_completion w fuel timeout s0 = Returned Exit_complete s1
    /\ measurement_complete (reader s1) = true
    /\ data_acquisition_time (reader s1)
       = last_end_marker (arrivals (fst (w_sleep w n)))
    /\ data_buffer (reader s1)
       = data_buffer (reader s0) ++ decoded (frames_until w n)
    /\ get_temperature_data w fuel timeout s0
       = Returned (data_buffer (reader s1) ++ decoded (arrivals (w_stop_notify w)))
                  s2
    /\ data_buffer (reader s2)
       = data_buffer (reader s1) ++ decoded (arrivals (w_stop_notify w))
    /\ calls s2
       = calls s0 ++ [Call_start_notify READ_CHAR_UUID;
                      Call_write_gatt_char WRITE_CHAR_UUID GETDATA_LF;
                      Call_stop_notify READ_CHAR_UUID].
Proof.
  intros Hinc Hstart Hwrite Hstop Hsleep Hbefore Hno Hend Hfuel.
  rewrite !existsb_app in Hno.
  apply orb_false_elim in Hno. destruct Hno as [Hno1 Hno].
  apply orb_false_elim in Hno. destruct Hno as [Hno2 Hno3].
  set (sa := set_reader (deliver (arrivals (w_start_notify w)) (reader s0))
               (set_notifying true
                  (record_call (Call_start_notify READ_CHAR_UUID) s0))).
  set (sb := set_reader (deliver (arrivals (w_write w)) (reader sa))
               (record_call (Call_write_gatt_char WRITE_CHAR_UUID GETDATA_LF) sa)).
  set (s1 := set_reader (deliver (sleep_frames w 0 (S n)) (reader sb)) sb).
  set (s2 := set_notifying false
               (set_reader (deliver (arrivals (w_stop_notify w)) (reader s1))
                  (record_call (Call_stop_notify READ_CHAR_UUID) s1))).
  assert (Ha : setup_notification w s0 = Returned tt sa).
  { unfold setup_notification. rewrite Hstart.
    rewrite await_returns by exact Hstart. reflexivity. }
  assert (Hb : send_command w "GETDATA" sa = Returned tt sb).
  { unfold send_command. rewrite await_returns by exact Hwrite. reflexivity. }
  assert (Hcb : measurement_complete (reader sb) = false).
  { subst sb sa. cbn [reader set_reader].
    rewrite !deliver_complete, Hinc, Hno1, Hno2. reflexivity. }
  assert (Hl : wait_loop w timeout (w_time0 w) fuel 0 sb = Returned Exit_complete s1).
  { apply wait_loop_completion; try assumption. reflexivity. }
  assert (Hs : stop_notify w s1 = Returned tt s2).
  { unfold stop_notify. rewrite await_returns by exact Hstop. reflexivity. }
  assert (Hlast : sleep_frames w 0 (S n)
                  = sleep_frames w 0 n ++ arrivals (fst (w_sleep w n))).
  { unfold sleep_frames. rewrite seq_S, flat_map_app. cbn [flat_map plus].
    rewrite app_nil_r. reflexivity. }
  assert (Hbuf2 : data_buffer (reader s2)
                  = data_buffer (reader s1) ++ decoded (arrivals (w_stop_notify w))).
  { subst s2. cbn [reader set_reader set_notifying]. apply deliver_buffer. }
  exists s1, s2.
  split; [unfold wait_for_completion, cbind; rewrite Ha, Hb; exact Hl|].
  split.
  { subst s1. cbn [reader set_reader]. rewrite deliver_complete, Hcb, Hlast.
    rewrite existsb_app, Hend, orb_true_r. reflexivity. }
  split.
  { subst s1. cbn [reader set_reader]. rewrite Hlast, deliver_app, !deliver_time.
    apply last_end_marker_None in Hno3. rewrite Hno3.
    destruct (last_end_marker (arrivals (fst (w_sleep w n)))) eqn:Hl';
      [reflexivity|].
    apply last_end_marker_None in Hl'. rewrite Hl' in Hend. discriminate. }
  split.
  { subst s1 sb sa. unfold frames_until. cbn [reader set_reader].
    rewrite !deliver_buffer, !decoded_app, <- !app_assoc. reflexivity. }
  split; [unfold get_temperature_data, cbind; rewrite Ha, Hb, Hl, Hs, Hbuf2;
          reflexivity|].
  split; [exact Hbuf2|].
  subst s2 s1 sb sa. cbn [calls set_reader set_notifying record_call].
  rewrite <- !app_assoc. reflexivity.
Qed.

Lemma get_temperature_data_completion_witness :
  exists s1 s2,
    wait_for_completion world_completion 2 60 (session_of (init DEVICE_ADDRESS))
    = Returned Exit_complete s1
    /\ measurement_complete (reader s1) = true
    /\ data_acquisition_time (reader s1) = Some (mk_datetime 2024 1 1 10 0 0)
    /\ get_temperature_data world_completion 2 60 (session_of (init DEVICE_ADDRESS))
       = Returned [Sample.mk 5 27.5 40; Sample.mk 10 28 48] s2.
Proof.
  destruct (get_temperature_data_completion world_completion 60 1 2
              (session_of (init DEVICE_ADDRESS)))
    as (s1 & s2 & H1 & H2 & H3 & H4 & H5 & _).
  - reflexivity.
  - reflexivity.
  - reflexivity.
  - reflexivity.
  - intros k Hk. destruct k as [|[|k]]; [reflexivity | reflexivity | lia].
  - intros k Hk. destruct k as [|[|k]];
      [vm_compute; reflexivity | vm_compute; reflexivity | lia].
  - vm_compute. reflexivity.
  - vm_compute. reflexivity.
  - lia.
  - exists s1, s2. split; [exact H1|]. split; [exact H2|].
    split; [exact H3|]. rewrite H5, H4. vm_compute. reflexivity.
Defined.

(** ** What [main] calls, writes and raises *)

Lemma handle_arrivals_reader (ev : await_event) (s : session) :
  address (reader (handle_arrivals ev s)) = address (reader s)
  /\ csv_file (handle_arrivals ev s) = csv_file s
  /\ (existsb is_end_marker (arrivals ev) = false ->
      data_acquisition_time (reader (handle_arrivals ev s))
      = data_acquisition_time (reader s)).
Proof.
  unfold handle_arrivals. destruct (notifying s); cbn [reader set_reader csv_file].
  - rewrite deliver_address, deliver_time. repeat split.
    intros H. apply last_end_marker_None in H. rewrite H. reflexivity.
  - repeat split.
Qed.

Lemma wait_loop_reader (w : world) (timeout : Z) (start_time : float) :
  forall (fuel k : nat) (s : session),
    match wait_loop w timeout start_time fuel k s with
    | Returned _ s' | Raised _ s' =>
        address (reader s') = address (reader s)
        /\ csv_file s' = csv_file s
        /\ ((forall j, existsb is_end_marker (arrivals (fst (w_sleep w j))) = false) ->
            data_acquisition_time (reader s') = data_acquisition_time (reader s))
    | OutOfFuel => True
    end.
Proof.
  induction fuel as [|fuel IH]; intros k s; cbn [wait_loop].
  - destruct (measurement_complete (reader s)); auto.
  - destruct (measurement_complete (reader s)); [auto|].
    unfold await.
    pose proof (handle_arrivals_reader (fst (w_sleep w k)) s) as (Ha1 & Ha2 & Ha3).
    destruct (outcome (fst (w_sleep w k))).
    { repeat split; auto. }
    destruct (float_gt_int _ _).
    { repeat split; auto. }
    specialize (IH (S k) (handle_arrivals (fst (w_sleep w k)) s)).
    destruct (wait_loop w timeout start_time fuel (S k) _) as [x s''|e s''|];
      [| |exact I]; destruct IH as (I1 & I2 & I3);
      (split; [congruence|]); (split; [congruence|]);
      intros Hno; rewrite (I3 Hno); apply Ha3; apply Hno.
Qed.

Lemma generate_csv_data_no_time (self : HalshareReader) :
  data_acquisition_time self = None -> generate_csv_data self = Ok [].
Proof.
  intros H. unfold generate_csv_data. rewrite H.
  destruct (data_buffer self); reflexivity.
Qed.

(** The session the body of [main] ends in. *)
Lemma main_body_facts (w : world) (fuel : nat) (device : string) (s' : session) :
  final_session (main_body w fuel (session_of (init device))) = Some s' ->
  (exists k, (1 <= k <= 4)%nat /\ calls s' = firstn k session_calls)
  /\ address (reader s') = device
  /\ (forall rows,
         csv_file s' = Some rows ->
         rows <> [] /\ generate_csv_data (reader s') = Ok rows /\ w_save w = None)
  /\ (never_completes w -> data_acquisition_time (reader s') = None).
Proof.
  unfold main_body, get_temperature_data, cbind, connect, setup_notification,
    send_command, stop_notify, await, never_completes.
  cbn [reader set_reader record_call session_of calls app address init set_client outcome].
  destruct (w_connect w) as [e|] eqn:Hconn.
  { intros [= <-]. cbn. repeat split; try discriminate. exists 1%nat. split; [lia | reflexivity]. }
  destruct (w_sleep1 w) as [e|] eqn:Hsleep.
  { intros [= <-]. session_fields. cbn. repeat split; try discriminate.
    exists 1%nat. split; [lia | reflexivity]. }
  destruct (outcome (w_start_notify w)) as [e|] eqn:Hstart.
  { intros [= <-]. session_fields. cbn. repeat split; try discriminate.
    exists 2%nat. split; [lia | reflexivity]. }
  match goal with
  | |- context [Returned tt (handle_arrivals (w_write w) ?s)] =>
      set (sb := handle_arrivals (w_write w) s)
  end.
  assert (Hsb : calls sb = firstn 3 session_calls
                /\ address (reader sb) = device
                /\ csv_file sb = None
                /\ (never_completes w -> data_acquisition_time (reader sb) = None)).
  { subst sb. session_fields.
    split; [reflexivity|].
    pose proof (handle_arrivals_reader (w_write w)) as Hw.
    pose proof (handle_arrivals_reader (w_start_notify w)) as Hn.
    match goal with
    | |- context [handle_arrivals (w_write w) ?s] =>
        destruct (Hw s) as (-> & -> & Hw3);
        match s with
        | context [handle_arrivals (w_start_notify w) ?t] =>
            cbn [reader csv_file record_call];
            destruct (Hn t) as (-> & -> & Hn3)
        end
    end.
    repeat split.
    intros (N1 & N2 & _). rewrite (Hw3 N2). cbn [reader record_call].
    rewrite (Hn3 N1). reflexivity. }
  destruct Hsb as (Hcalls & Haddr & Hcsv & Htime). clearbody sb.
  destruct (outcome (w_write w)) as [e|] eqn:Hwrite.
  { intros [= <-]. rewrite Hcalls, Haddr, Hcsv. repeat split; try discriminate; auto.
    exists 3%nat. split; [lia | reflexivity]. }
  pose proof (wait_loop_frame w 60 (w_time0 w) fuel 0 sb) as Hframe.
  pose proof (wait_loop_reader w 60 (w_time0 w) fuel 0 sb) as Hreader.
  destruct (wait_loop w 60 (w_time0 w) fuel 0 sb) as [x sl|e sl|];
    [| |discriminate].
  - destruct Hframe as (Hc & _ & _). destruct Hreader as (Ha & Hf & Ht).
    set (s2 := handle_arrivals (w_stop_notify w)
                 (record_call (Call_stop_notify READ_CHAR_UUID) sl)).
    assert (Hs2 : calls s2 = firstn 4 session_calls
                  /\ address (reader s2) = device
                  /\ csv_file s2 = None
                  /\ (never_completes w -> data_acquisition_time (reader s2) = None)).
    { subst s2.
      destruct (handle_arrivals_reader (w_stop_notify w)
                  (record_call (Call_stop_notify READ_CHAR_UUID) sl))
        as (-> & -> & Hs3).
      session_fields. rewrite Hc, Hcalls, Ha, Haddr, Hf, Hcsv.
      repeat split.
      intros N. pose proof N as (N1 & N2 & N3 & N4).
      rewrite (Hs3 N3). cbn [reader record_call]. rewrite (Ht N4). apply Htime, N. }
    destruct Hs2 as (Hc2 & Ha2 & Hf2 & Ht2). clearbody s2.
    destruct (outcome (w_stop_notify w)) as [e|] eqn:Hstop.
    { intros [= <-]. rewrite Hc2, Ha2, Hf2. repeat split; try discriminate; auto.
      exists 4%nat. split; [lia | reflexivity]. }
    cbn [reader set_notifying].
    destruct (data_buffer (reader s2)) as [|d ds].
    { intros [= <-]. session_fields. rewrite Hc2, Ha2, Hf2.
      repeat split; try discriminate; auto.
      exists 4%nat. split; [lia | reflexivity]. }
    unfold lift, save_to_csv. cbn beta. cbn [reader set_notifying].
    destruct (generate_csv_data (reader s2)) as [[|row rows]|e] eqn:Hgen;
      [| destruct (w_save w) eqn:Hsave |];
      intros [= <-]; session_fields; rewrite ?Hc2, ?Ha2, ?Hf2;
      (split; [exists 4%nat; split; [lia | reflexivity]|]);
      (split; [reflexivity|]); (split; [|exact Ht2]);
      try (intros rows0 [=]; fail).
    intros rows0 [= <-]. repeat split; [discriminate | exact Hgen].
  - destruct Hframe as (Hc & _ & _). destruct Hreader as (Ha & Hf & Ht).
    intros [= <-]. rewrite Hc, Hcalls, Ha, Haddr, Hf, Hcsv.
    repeat split; try discriminate.
    + exists 3%nat. split; [lia | reflexivity].
    + intros N. rewrite Ht by apply N. apply Htime, N.
Qed.

Lemma disconnect_reader (w : world) (s' s : session) :
  final_session (disconnect w s') = Some s ->
  reader s = reader s' /\ csv_file s = csv_file s'.
Proof.
  unfold disconnect, await, handle_arrivals.
  destruct (client (reader s')); [|intros [= <-]; split; reflexivity].
  destruct (connected s' && w_link_alive w); [|intros [= <-]; split; reflexivity].
  cbn [outcome arrivals notifying record_call].
  destruct (notifying s'), (w_disconnect w); intros [= <-];
    cbn; split; reflexivity.
Qed.

(** The session [main] ends in, in terms of the one its body ends in. *)
Lemma main_on_final (w : world) (fuel : nat) (device : string) (s : session) :
  final_session (main_on w fuel device) = Some s ->
  exists s',
    final_session (main_body w fuel (session_of (init device))) = Some s'
    /\ final_session (disconnect w s') = Some s.
Proof.
  unfold main_on. cbv zeta. rewrite final_try_finally, final_try_except.
  destruct (final_session (main_body w fuel (session_of (init device))))
    as [s'|]; [|discriminate].
  intros H. exists s'. split; [reflexivity | exact H].
Qed.

(** X6: the calls [main] makes on the transport are always an initial part
    of connect, start_notify, write of GETDATA and a line feed, stop_notify,
    in this order and each at most once, followed by disconnect when the
    connection was established and is still up: no command is written
    before the subscription, nothing is called after the disconnect, and
    the only payload ever written is the GETDATA command. *)
Theorem main_calls_in_order (w : world) (fuel : nat) (device : string)
    (s : session) :
  final_session (main_on w fuel device) = Some s ->
  exists k,
    (1 <= k <= 4)%nat
    /\ calls s
       = firstn k session_calls
         ++ (if is_None (w_connect w) && w_link_alive w
             then [Call_disconnect] else []).
Proof.
  intros H. apply main_on_final in H. destruct H as (s' & Hbody & Hfin).
  apply disconnect_final in Hfin.
  destruct (main_body_final w fuel device s' Hbody) as (Hclient & Hconn & _).
  destruct (main_body_facts w fuel device s' Hbody) as ((k & Hk & Hcalls) & _).
  exists k. split; [exact Hk|].
  rewrite Hfin, Hclient, Hconn, Hcalls. reflexivity.
Qed.

Lemma main_calls_in_order_witness :
  exists s,
    final_session (main_on world_timeout 3 DEVICE_ADDRESS) = Some s
    /\ exists k,
         (1 <= k <= 4)%nat
         /\ calls s = firstn k session_calls ++ [Call_disconnect].
Proof.
  eexists. split; [vm_compute; reflexivity|].
  exact (main_calls_in_order world_timeout 3 DEVICE_ADDRESS _ eq_refl).
Defined.

(** X9: an exception leaves [main] only when it is not an [Exception] (a
    cancellation) or when it is raised by the disconnect of the [finally]
    clause; whatever connecting, the subscription, the command write, the
    unsubscription, the reconstruction or the file raise is caught. *)
Theorem main_raises_only (w : world) (fuel : nat) (device : string)
    (e : exn) (s : session) :
  main_on w fuel device = Raised e s ->
  is_Exception e = false \/ w_disconnect w = Some e.
Proof.
  unfold main_on, try_finally, try_except_Exception. cbv zeta.
  assert (Hd : forall s' e' s'', disconnect w s' = Raised e' s'' ->
                                 w_disconnect w = Some e').
  { intros s' e' s''. unfold disconnect, await.
    destruct (client (reader s')); [|discriminate].
    destruct (connected s' && w_link_alive w); [|discriminate].
    cbn [outcome]. destruct (w_disconnect w); [|discriminate].
    intros [= <- _]. reflexivity. }
  destruct (main_body w fuel (session_of (init device))) as [x s'|e' s'|];
    [| |discriminate].
  - destruct (disconnect w s') as [y s''|e'' s''|] eqn:Hdis; [discriminate| |discriminate].
    intros [= <- _]. right. exact (Hd _ _ _ Hdis).
  - destruct (is_Exception e') eqn:He'.
    + destruct (disconnect w s') as [y s''|e'' s''|] eqn:Hdis;
        [discriminate| |discriminate].
      intros [= <- _]. right. exact (Hd _ _ _ Hdis).
    + destruct (disconnect w s') as [y s''|e'' s''|] eqn:Hdis; [| |discriminate].
      * intros [= <- _]. left. exact He'.
      * intros [= <- _]. right. exact (Hd _ _ _ Hdis).
Qed.

Lemma main_raises_only_witness :
  exists s,
    main_on world_disconnect_fails 0 DEVICE_ADDRESS = Raised BleakError s
    /\ (is_Exception BleakError = false
        \/ w_disconnect world_disconnect_fails = Some BleakError).
Proof.
  eexists. split; [vm_compute; reflexivity|].
  exact (main_raises_only world_disconnect_fails 0 DEVICE_ADDRESS BleakError _ eq_refl).
Defined.

(** ** The rows of the reconstruction, whatever the times *)

Lemma getitem_Ok_nth {A : Type} (l : list A) (k : nat) (a d : A) :
  getitem l (Z.of_nat k) = Ok a -> a = nth k l d /\ (k < List.length l)%nat.
Proof.
  unfold getitem, len.
  destruct (Z.ltb_spec (Z.of_nat k) 0) as [Hneg|_]; [lia|].
  destruct (Z.leb_spec 0 (Z.of_nat k)) as [_|Hneg]; [|lia].
  destruct (Z.ltb_spec (Z.of_nat k) (Z.of_nat (List.length l))) as [Hlt|_];
    [|discriminate].
  cbn [andb]. rewrite Nat2Z.id.
  destruct (nth_error l k) as [a'|] eqn:Hn; [|discriminate].
  intros [= <-]. split; [|lia].
  symmetry. apply nth_error_nth. exact Hn.
Qed.

(** The rows the loop of [generate_csv_data] appends over the indices [ks]:
    one per index, with the temperature of the sample at that index. *)
Lemma csv_loop_rows (self : HalshareReader) (d : Sample.t) (ks : list nat) :
  forall (acc rows : list CsvRow.t) (cur cur' : datetime),
    for_each (map Z.of_nat ks) (csv_loop_body self) (acc, cur) = Ok (rows, cur') ->
    exists added,
      rows = acc ++ added
      /\ Forall (fun r => CsvRow.halshareId r = address self
                          /\ CsvRow.halshareWearerName r = WEARER_NAME) added
      /\ map CsvRow.temperature added
         = map (fun k => Sample.temperature (nth k (data_buffer self) d)) ks.
Proof.
  induction ks as [|k ks IH]; intros acc rows cur cur' H.
  - cbn in H. injection H as <- _. exists []. rewrite app_nil_r.
    repeat split. constructor.
  - cbn [map for_each] in H. unfold csv_loop_body at 1 in H.
    destruct (getitem (data_buffer self) (Z.of_nat k)) as [data|e] eqn:Hget;
      [|discriminate].
    apply (getitem_Ok_nth _ _ _ d) in Hget. destruct Hget as [-> _].
    cbn [bind] in H.
    match type of H with
    | context [if ?c then _ else _] => destruct c
    end.
    + destruct (timedelta_minutes _) as [delta|e]; [|discriminate].
      cbn [bind] in H. destruct (datetime_sub cur delta) as [c|e]; [|discriminate].
      cbn [bind] in H. apply IH in H. destruct H as (added & -> & Hid & Ht).
      eexists. rewrite <- app_assoc. split; [reflexivity|].
      split; [constructor; [split; reflexivity | exact Hid]|].
      cbn [app map CsvRow.temperature]. rewrite Ht. reflexivity.
    + cbn [bind] in H. apply IH in H. destruct H as (added & -> & Hid & Ht).
      eexists. rewrite <- app_assoc. split; [reflexivity|].
      split; [constructor; [split; reflexivity | exact Hid]|].
      cbn [app map CsvRow.temperature]. rewrite Ht. reflexivity.
Qed.

Lemma map_nth_seq {A B : Type} (f : A -> B) (l : list A) (d : A) :
  map (fun k => f (nth k l d)) (seq 0 (List.length l)) = map f l.
Proof.
  induction l as [|a l IH]; [reflexivity|].
  cbn [List.length seq map nth]. f_equal.
  rewrite <- seq_shift, map_map. exact IH.
Qed.

Lemma generate_csv_data_rows (self : HalshareReader) (rows : list CsvRow.t) :
  generate_csv_data self = Ok rows ->
  Forall (fun r => CsvRow.halshareId r = address self
                   /\ CsvRow.halshareWearerName r = WEARER_NAME) rows
  /\ (rows = []
      \/ map CsvRow.temperature rows = map Sample.temperature (data_buffer self)).
Proof.
  unfold generate_csv_data.
  destruct (data_buffer self) as [|s0 buf] eqn:Hbuf.
  { intros [= <-]. split; [constructor | left; reflexivity]. }
  destruct (data_acquisition_time self) as [T|].
  2:{ intros [= <-]. split; [constructor | left; reflexivity]. }
  rewrite <- Hbuf. unfold len. rewrite py_range_down, <- map_rev.
  destruct (for_each _ _ _) as [[csv_rows cur']|e] eqn:Hloop; [|discriminate].
  cbn [bind]. intros [= <-].
  apply (csv_loop_rows self s0) in Hloop.
  destruct Hloop as (added & -> & Hid & Ht). cbn [app].
  split; [apply Forall_rev; exact Hid|]. right.
  rewrite map_rev, Ht, <- map_rev, rev_involutive. apply map_nth_seq.
Qed.

(** X7: whenever [generate_csv_data] returns rows, every row carries the
    wearer name "test" and the address of the reader, and, unless there is
    no row at all, the rows carry the temperatures of the samples of the
    buffer, one row per sample, in the order of the buffer. *)
Theorem generate_csv_data_row_fields (self : HalshareReader) (rows : list CsvRow.t) :
  generate_csv_data self = Ok rows ->
  Forall (fun r => CsvRow.halshareId r = address self
                   /\ CsvRow.halshareWearerName r = "test"%string) rows
  /\ (rows = []
      \/ map CsvRow.temperature rows = map Sample.temperature (data_buffer self)).
Proof. exact (generate_csv_data_rows self rows). Qed.

Lemma generate_csv_data_row_fields_witness :
  exists rows,
    generate_csv_data
      (mkReader DEVICE_ADDRESS None [Sample.mk 5 27.5 40; Sample.mk 10 28 48] true
                (Some (mk_datetime 2024 1 1 10 0 0)))
    = Ok rows
    /\ Forall (fun r => CsvRow.halshareId r = DEVICE_ADDRESS
                        /\ CsvRow.halshareWearerName r = "test"%string) rows
    /\ (rows = [] \/ map CsvRow.temperature rows = [27.5; 28]%float).
Proof.
  eexists. split; [vm_compute; reflexivity|].
  exact (generate_csv_data_row_fields
           (mkReader DEVICE_ADDRESS None [Sample.mk 5 27.5 40; Sample.mk 10 28 48]
                     true (Some (mk_datetime 2024 1 1 10 0 0)))
           _ eq_refl).
Defined.

(** The file written, in terms of the reader [main] ends with. *)
Lemma main_on_csv (w : world) (fuel : nat) (device : string)
    (s : session) (rows : list CsvRow.t) :
  final_session (main_on w fuel device) = Some s ->
  csv_file s = Some rows ->
  rows <> []
  /\ generate_csv_data (reader s) = Ok rows
  /\ Forall (fun r => CsvRow.halshareId r = device) rows
  /\ map CsvRow.temperature rows = map Sample.temperature (data_buffer (reader s)).
Proof.
  intros H Hcsv. apply main_on_final in H. destruct H as (s' & Hbody & Hfin).
  apply disconnect_reader in Hfin. destruct Hfin as [Hr Hc].
  destruct (main_body_facts w fuel device s' Hbody) as (_ & Haddr & Hrows & _).
  rewrite Hc in Hcsv. destruct (Hrows rows Hcsv) as (Hne & Hgen & _).
  rewrite Hr. split; [exact Hne|]. split; [exact Hgen|].
  destruct (generate_csv_data_rows _ _ Hgen) as [Hid [-> | Ht]]; [congruence|].
  split; [|exact Ht].
  rewrite Haddr in Hid. eapply Forall_impl; [|exact Hid]. intros r [Hr' _]. exact Hr'.
Qed.

(** X8: the file [main] writes, if it writes one, is never empty and holds
    exactly what [generate_csv_data] returns on the reader as it is when
    [main] ends: one row per sample received, in order of arrival, with the
    address of the device the reader was created for. *)
Theorem main_csv_file (w : world) (fuel : nat) (device : string)
    (s : session) (rows : list CsvRow.t) :
  final_session (main_on w fuel device) = Some s ->
  csv_file s = Some rows ->
  rows <> []
  /\ generate_csv_data (reader s) = Ok rows
  /\ Forall (fun r => CsvRow.halshareId r = device) rows
  /\ map CsvRow.temperature rows = map Sample.temperature (data_buffer (reader s)).
Proof. exact (main_on_csv w fuel device s rows). Qed.

Lemma main_csv_file_witness :
  exists s rows,
    final_session (main_on world_completion 2 DEVICE_ADDRESS) = Some s
    /\ csv_file s = Some rows
    /\ rows <> []
    /\ generate_csv_data (reader s) = Ok rows
    /\ map CsvRow.datetime rows = ["2024/01/01 09:50:00"; "2024/01/01 10:00:00"]%string.
Proof.
  eexists. eexists.
  split; [vm_compute; reflexivity|]. split; [reflexivity|].
  destruct (main_csv_file world_completion 2 DEVICE_ADDRESS _ _ eq_refl eq_refl)
    as (Hne & Hgen & _).
  split; [exact Hne|]. split; [exact Hgen|]. reflexivity.
Defined.

(** X10: when no end marker ever arrives, [main] writes no file, whatever
    samples it has received: without a completion time the reconstruction
    returns no row and [save_to_csv] returns before opening the file. *)
Theorem main_saves_nothing_without_completion (w : world) (fuel : nat)
    (device : string) (s : session) :
  never_completes w ->
  final_session (main_on w fuel device) = Some s ->
  csv_file s = None /\ data_acquisition_time (reader s) = None.
Proof.
  intros Hnever H. apply main_on_final in H. destruct H as (s' & Hbody & Hfin).
  apply disconnect_reader in Hfin. destruct Hfin as [Hr Hc].
  destruct (main_body_facts w fuel device s' Hbody) as (_ & _ & Hrows & Htime).
  specialize (Htime Hnever). rewrite Hr, Hc. split; [|exact Htime].
  destruct (csv_file s') as [rows|] eqn:Hcsv; [|reflexivity].
  destruct (Hrows rows eq_refl) as (Hne & Hgen & _).
  rewrite (generate_csv_data_no_time _ Htime) in Hgen. congruence.
Qed.

Lemma main_saves_nothing_without_completion_witness :
  exists s,
    final_session (main_on world_timeout 3 DEVICE_ADDRESS) = Some s
    /\ List.length (data_buffer (reader s)) = 2%nat
    /\ csv_file s = None /\ data_acquisition_time (reader s) = None.
Proof.
  eexists. split; [vm_compute; reflexivity|]. split; [reflexivity|].
  apply (main_saves_nothing_without_completion world_timeout 3 DEVICE_ADDRESS).
  - repeat split; try reflexivity.
    intros k. destruct k as [|[|k]]; reflexivity.
  - reflexivity.
Defined.

(** ** Device discovery and selection *)

Lemma insert_by_rssi_perm (x : scan_item) (l : list scan_item) :
  Permutation (insert_by_rssi x l) (x :: l).
Proof.
  induction l as [|y l IH]; cbn [insert_by_rssi]; [apply Permutation_refl|].
  destruct (item_rssi y >? item_rssi x); [|apply Permutation_refl].
  apply perm_trans with (y :: x :: l); [apply perm_skip; exact IH | apply perm_swap].
Qed.

Lemma sorted_by_rssi_perm (l : list scan_item) :
  Permutation (sorted_by_rssi l) l.
Proof.
  induction l as [|x l IH]; [apply perm_nil|].
  cbn [sorted_by_rssi fold_right].
  apply perm_trans with (x :: sorted_by_rssi l);
    [apply insert_by_rssi_perm | apply perm_skip; exact IH].
Qed.

Lemma insert_by_rssi_sorted (x : scan_item) (l : list scan_item) :
  StronglySorted (fun a b => item_rssi a >= item_rssi b) l ->
  StronglySorted (fun a b => item_rssi a >= item_rssi b) (insert_by_rssi x l).
Proof.
  induction l as [|y l IH]; intros Hs; cbn [insert_by_rssi].
  - constructor; constructor.
  - apply StronglySorted_inv in Hs. destruct Hs as [Hl Hy].
    destruct (Z.gtb_spec (item_rssi y) (item_rssi x)) as [Hgt|Hle].
    + constructor; [apply IH; exact Hl|].
      apply (Permutation_Forall (Permutation_sym (insert_by_rssi_perm x l))).
      constructor; [lia | exact Hy].
    + constructor; [constructor; assumption|].
      constructor; [lia|].
      eapply Forall_impl; [|exact Hy]. cbn beta. intros a Ha. lia.
Qed.

Lemma sorted_by_rssi_sorted (l : list scan_item) :
  StronglySorted (fun a b => item_rssi a >= item_rssi b) (sorted_by_rssi l).
Proof.
  induction l as [|x l IH]; [constructor|].
  cbn [sorted_by_rssi fold_right]. apply insert_by_rssi_sorted. exact IH.
Qed.

(** Among the items of one signal strength the sort changes nothing. *)
Lemma insert_by_rssi_stable (r : Z) (x : scan_item) (l : list scan_item) :
  filter (fun item => item_rssi item =? r) (insert_by_rssi x l)
  = filter (fun item => item_rssi item =? r) (x :: l).
Proof.
  induction l as [|y l IH]; cbn [insert_by_rssi]; [reflexivity|].
  destruct (Z.gtb_spec (item_rssi y) (item_rssi x)) as [Hgt|Hle]; [|reflexivity].
  cbn [filter] in *. rewrite IH.
  destruct (Z.eqb_spec (item_rssi x) r) as [Hx|Hx];
    destruct (Z.eqb_spec (item_rssi y) r) as [Hy|Hy]; try reflexivity.
  lia.
Qed.

Lemma sorted_by_rssi_stable (r : Z) (l : list scan_item) :
  filter (fun item => item_rssi item =? r) (sorted_by_rssi l)
  = filter (fun item => item_rssi item =? r) l.
Proof.
  induction l as [|x l IH]; [reflexivity|].
  cbn [sorted_by_rssi fold_right]. rewrite insert_by_rssi_stable.
  cbn [filter]. fold (sorted_by_rssi l). rewrite IH. reflexivity.
Qed.

Lemma sorted_devices_In (devices : list scan_item) (item : scan_item) :
  In item (sorted_devices devices)
  <-> In item devices /\ name_matches (item_device item) = true.
Proof.
  unfold sorted_devices, filter_devices.
  pose proof (filter_In (fun it => name_matches (item_device it)) item devices)
    as Hf. cbn beta in Hf. rewrite <- Hf. split.
  - apply Permutation_in. apply sorted_by_rssi_perm.
  - apply Permutation_in. apply Permutation_sym, sorted_by_rssi_perm.
Qed.

(** X11: the devices listed by [scan_devices] and offered by
    [scan_and_select_device] are exactly the discovered devices whose name
    starts with TM2101-SR, each once, by decreasing signal strength, devices
    of equal strength in the order of discovery. *)
Theorem sorted_devices_listing (devices : list scan_item) :
  Permutation (sorted_devices devices) (filter_devices devices)
  /\ (forall item,
         In item (sorted_devices devices)
         <-> In item devices /\ name_matches (item_device item) = true)
  /\ StronglySorted (fun a b => item_rssi a >= item_rssi b) (sorted_devices devices)
  /\ (forall r,
         filter (fun item => item_rssi item =? r) (sorted_devices devices)
         = filter (fun item => item_rssi item =? r) (filter_devices devices)).
Proof.
  split; [apply sorted_by_rssi_perm|].
  split; [apply sorted_devices_In|].
  split; [apply sorted_by_rssi_sorted|].
  intros r. apply sorted_by_rssi_stable.
Qed.


Lemma device_list_len (sorted : list scan_item) :
  len (device_list_of sorted) = len sorted.
Proof. unfold len, device_list_of. rewrite length_map. reflexivity. Qed.

(** The selection loop passes over the answers it rejects. *)
Lemma select_loop_skips (device_list : list (string * option string * Z))
    (skipped inputs : list typed) :
  Forall (rejected (len device_list)) skipped ->
  select_loop device_list (skipped ++ inputs) = select_loop device_list inputs.
Proof.
  induction skipped as [|t skipped IH]; intros H; [reflexivity|].
  apply Forall_cons_iff in H. destruct H as [Ht Hs].
  destruct t as [m| |]; cbn [app select_loop].
  - replace ((1 <=? m) && (m <=? len device_list)) with false; [apply IH, Hs|].
    symmetry. apply andb_false_iff. cbn in Ht.
    destruct Ht; [left; apply Z.leb_gt | right; apply Z.leb_gt]; lia.
  - apply IH, Hs.
  - destruct Ht.
Qed.

(** A number within 1..n selects the entry of that rank. *)
Lemma select_loop_choice (device_list : list (string * option string * Z))
    (k : Z) (rest : list typed) (entry : string * option string * Z) :
  1 <= k ->
  nth_error device_list (Z.to_nat (k - 1)) = Some entry ->
  select_loop device_list (Typed_int k :: rest) = Selected (fst (fst entry)).
Proof.
  intros Hk Hn. cbn [select_loop].
  assert (Hlt : (Z.to_nat (k - 1) < List.length device_list)%nat).
  { apply nth_error_Some. rewrite Hn. discriminate. }
  replace ((1 <=? k) && (k <=? len device_list)) with true.
  2:{ symmetry. apply andb_true_intro. unfold len.
      split; apply Z.leb_le; lia. }
  replace (k - 1) with (Z.of_nat (Z.to_nat (k - 1))) by lia.
  rewrite (getitem_nth device_list _ entry Hlt).
  rewrite (nth_error_nth _ _ entry Hn).
  destruct entry as [[a nm] r]. reflexivity.
Qed.


Lemma select_loop_Selected (device_list : list (string * option string * Z))
    (inputs : list typed) (a : string) :
  select_loop device_list inputs = Selected a ->
  exists nm r, In (a, nm, r) device_list.
Proof.
  induction inputs as [|t inputs IH]; [discriminate|].
  destruct t as [m| |]; cbn [select_loop]; [|exact IH|discriminate].
  destruct ((1 <=? m) && (m <=? len device_list)) eqn:Hc; [|exact IH].
  apply andb_prop in Hc. destruct Hc as [H1 H2].
  apply Z.leb_le in H1, H2.
  replace (m - 1) with (Z.of_nat (Z.to_nat (m - 1))) by lia.
  destruct (getitem device_list _) as [[[a' nm] r]|e] eqn:Hget; [|discriminate].
  intros [= <-]. exists nm, r.
  apply (getitem_Ok_nth _ _ _ (a', nm, r)) in Hget. destruct Hget as [Heq Hlt].
  rewrite Heq. apply nth_In. exact Hlt.
Qed.

Lemma scan_selected_sound (devices : list scan_item) (inputs : list typed)
    (a : string) :
  scan_and_select_device devices inputs = Selected a ->
  exists item,
    In item devices /\ name_matches (item_device item) = true
    /\ BLEDevice.address (item_device item) = a.
Proof.
  unfold scan_and_select_device.
  destruct (filter_devices devices); [discriminate|].
  intros H. apply select_loop_Selected in H. destruct H as (nm & r & Hin).
  unfold device_list_of in Hin. apply in_map_iff in Hin.
  destruct Hin as (item & Heq & Hitem). injection Heq as Ha _ _.
  apply sorted_devices_In in Hitem. destruct Hitem as [Hd Hm].
  exists item. repeat split; assumption.
Qed.

(** X12: the address [scan_and_select_device] returns is always the address
    of a discovered device whose name starts with TM2101-SR. *)
Theorem scan_and_select_device_sound (devices : list scan_item)
    (inputs : list typed) (selected_address : string) :
  scan_and_select_device devices inputs = Selected selected_address ->
  exists item,
    In item devices /\ name_matches (item_device item) = true
    /\ BLEDevice.address (item_device item) = selected_address.
Proof. apply scan_selected_sound. Qed.

Lemma scan_and_select_device_sound_witness :
  scan_and_select_device devices_found [Typed_invalid; Typed_int 7; Typed_int 2]
  = Selected "AA"
  /\ exists item,
       In item devices_found /\ name_matches (item_device item) = true
       /\ BLEDevice.address (item_device item) = "AA"%string.
Proof.
  split; [reflexivity|].
  exact (scan_and_select_device_sound devices_found
           [Typed_invalid; Typed_int 7; Typed_int 2] "AA" eq_refl).
Defined.


(** X14: answers that are not numbers, and numbers outside 1..n, are passed
    over; the first number k within 1..n selects the device of rank k in the
    list offered, whatever is typed afterwards. *)
Theorem scan_and_select_device_first_valid (devices : list scan_item)
    (skipped rest : list typed) (k : Z) (item : scan_item) :
  Forall (rejected (len (sorted_devices devices))) skipped ->
  1 <= k ->
  nth_error (sorted_devices devices) (Z.to_nat (k - 1)) = Some item ->
  scan_and_select_device devices (skipped ++ Typed_int k :: rest)
  = Selected (BLEDevice.address (item_device item)).
Proof.
  intros Hskip Hk Hn. unfold scan_and_select_device.
  destruct (filter_devices devices) as [|f fs] eqn:Hf.
  { unfold sorted_devices in Hn. rewrite Hf in Hn. cbn in Hn.
    destruct (Z.to_nat (k - 1)); discriminate. }
  rewrite select_loop_skips by (rewrite device_list_len; exact Hskip).
  rewrite (select_loop_choice _ k rest
             (BLEDevice.address (item_device item),
              BLEDevice.name (item_device item), item_rssi item) Hk).
  - reflexivity.
  - unfold device_list_of. rewrite nth_error_map, Hn. reflexivity.
Qed.

Lemma scan_and_select_device_first_valid_witness :
  scan_and_select_device devices_found
    ([Typed_invalid; Typed_int 0; Typed_int 3] ++ Typed_int 2 :: [Typed_int 1])
  = Selected "AA".
Proof.
  apply (scan_and_select_device_first_valid devices_found
           [Typed_invalid; Typed_int 0; Typed_int 3] [Typed_int 1] 2
           ("AA"%string,
            (BLEDevice.mk "AA" (Some "TM2101-SR 0001"%string),
             AdvertisementData.mk (-70)))).
  - repeat constructor; cbn; lia.
  - lia.
  - reflexivity.
Defined.

(** X15: when some discovered device has a name starting with TM2101-SR,
    answering 1 selects a device of the strongest signal among them. *)
Theorem scan_and_select_device_strongest (devices : list scan_item)
    (rest : list typed) (item : scan_item) :
  In item devices ->
  name_matches (item_device item) = true ->
  exists best,
    scan_and_select_device devices (Typed_int 1 :: rest)
    = Selected (BLEDevice.address (item_device best))
    /\ In best devices
    /\ name_matches (item_device best) = true
    /\ forall other,
         In other devices -> name_matches (item_device other) = true ->
         item_rssi other <= item_rssi best.
Proof.
  intros Hin Hm.
  assert (Hs : In item (sorted_devices devices)).
  { apply sorted_devices_In. split; assumption. }
  destruct (sorted_devices devices) as [|best l] eqn:Hsorted; [destruct Hs|].
  assert (Hbest : In best (sorted_devices devices)).
  { rewrite Hsorted. left. reflexivity. }
  apply sorted_devices_In in Hbest. destruct Hbest as [Hb1 Hb2].
  exists best. split.
  - unfold scan_and_select_device.
    destruct (filter_devices devices) as [|f fs] eqn:Hf.
    { unfold sorted_devices in Hsorted. rewrite Hf in Hsorted. discriminate. }
    rewrite Hsorted.
    apply (select_loop_choice _ 1 rest
             (BLEDevice.address (item_device best),
              BLEDevice.name (item_device best), item_rssi best));
      [lia | reflexivity].
  - split; [exact Hb1|]. split; [exact Hb2|].
    intros other Ho Hom.
    assert (Hos : In other (sorted_devices devices)).
    { apply sorted_devices_In. split; assumption. }
    pose proof (sorted_by_rssi_sorted (filter_devices devices)) as Hsrt.
    fold (sorted_devices devices) in Hsrt. rewrite Hsorted in Hsrt, Hos.
    apply StronglySorted_inv in Hsrt. destruct Hsrt as [_ Hall].
    destruct Hos as [<- | Hol]; [lia|].
    rewrite Forall_forall in Hall. specialize (Hall other Hol). lia.
Qed.

Lemma scan_and_select_device_strongest_witness :
  exists best,
    scan_and_select_device devices_found [Typed_int 1]
    = Selected (BLEDevice.address (item_device best))
    /\ In best devices_found
    /\ name_matches (item_device best) = true
    /\ forall other,
         In other devices_found -> name_matches (item_device other) = true ->
         item_rssi other <= item_rssi best.
Proof.
  apply (scan_and_select_device_strongest devices_found [Typed_int 1]
           ("AA"%string,
            (BLEDevice.mk "AA" (Some "TM2101-SR 0001"%string),
             AdvertisementData.mk (-70)))).
  - left. reflexivity.
  - reflexivity.
Defined.

(** X16: [main] of [halshare_app.py] runs a session only on an address
    that [scan_and_select_device] returned, which is the address of a
    discovered TM2101-SR device, and every row of the file that session
    writes carries this address. *)
Theorem app_main_session (devices : list scan_item) (inputs : list typed)
    (w : world) (fuel : nat) (selected_address : string) (r : sresult unit) :
  app_main devices inputs w fuel = App_session selected_address r ->
  r = main_on w fuel selected_address
  /\ (exists item,
         In item devices /\ name_matches (item_device item) = true
         /\ BLEDevice.address (item_device item) = selected_address)
  /\ (forall s rows,
         final_session r = Some s -> csv_file s = Some rows ->
         Forall (fun row => CsvRow.halshareId row = selected_address) rows).
Proof.
  unfold app_main.
  destruct (scan_and_select_device devices inputs) as [a| | |] eqn:Hscan;
    try discriminate.
  intros [= <- <-]. split; [reflexivity|].
  split; [exact (scan_selected_sound devices inputs a Hscan)|].
  intros s rows Hs Hcsv.
  destruct (main_on_csv w fuel a s rows Hs Hcsv) as (_ & _ & Hid & _). exact Hid.
Qed.

Lemma app_main_session_witness :
  exists r,
    app_main devices_found [Typed_int 1] world_completion 2 = App_session "CC" r
    /\ r = main_on world_completion 2 "CC"
    /\ (forall s rows,
           final_session r = Some s -> csv_file s = Some rows ->
           Forall (fun row => CsvRow.halshareId row = "CC"%string) rows).
Proof.
  eexists. split; [reflexivity|].
  destruct (app_main_session devices_found [Typed_int 1] world_completion 2 "CC"
              _ eq_refl) as (Hr & _ & Hrows).
  split; [exact Hr | exact Hrows].
Defined.

(** ** From the frames to the file *)

Lemma last_end_marker_app (fs gs : list (datetime * list byte)) :
  last_end_marker (fs ++ gs)
  = match last_end_marker gs with
    | Some t => Some t
    | None => last_end_marker fs
    end.
Proof.
  unfold last_end_marker at 1. rewrite fold_left_app.
  fold (last_end_marker fs). apply last_end_marker_from.
Qed.

Lemma sleep_frames_last (w : world) (n : nat) :
  sleep_frames w 0 (S n) = sleep_frames w 0 n ++ arrivals (fst (w_sleep w n)).
Proof.
  unfold sleep_frames. rewrite seq_S, flat_map_app. cbn [flat_map plus].
  rewrite app_nil_r. reflexivity.
Qed.

(** The acquisition on the completion path, with the session it ends in. *)
Lemma acquisition_completes (w : world) (timeout : Z) (n fuel : nat)
    (s0 : session) :
  measurement_complete (reader s0) = false ->
  outcome (w_start_notify w) = None ->
  outcome (w_write w) = None ->
  outcome (w_stop_notify w) = None ->
  (forall k, (k <= n)%nat -> outcome (fst (w_sleep w k)) = None) ->
  (forall k, (k <= n)%nat -> timed_out w timeout k = false) ->
  existsb is_end_marker
    (arrivals (w_start_notify w) ++ arrivals (w_write w) ++ sleep_frames w 0 n)
  = false ->
  existsb is_end_marker (arrivals (fst (w_sleep w n))) = true ->
  (n < fuel)%nat ->
  get_temperature_data w fuel timeout s0
  = Returned
      (data_buffer
         (deliver (frames_until w n ++ arrivals (w_stop_notify w)) (reader s0)))
      {| reader := deliver (frames_until w n ++ arrivals (w_stop_notify w))
                           (reader s0);
         connected := connected s0;
         notifying := false;
         calls := calls s0 ++ [Call_start_notify READ_CHAR_UUID;
                               Call_write_gatt_char WRITE_CHAR_UUID GETDATA_LF;
                               Call_stop_notify READ_CHAR_UUID];
         csv_file := csv_file s0 |}.
Proof.
  intros Hinc Hstart Hwrite Hstop Hsleep Hbefore Hno Hend Hfuel.
  rewrite !existsb_app in Hno.
  apply orb_false_elim in Hno. destruct Hno as [Hno1 Hno].
  apply orb_false_elim in Hno. destruct Hno as [Hno2 Hno3].
  set (sa := set_reader (deliver (arrivals (w_start_notify w)) (reader s0))
               (set_notifying true
                  (record_call (Call_start_notify READ_CHAR_UUID) s0))).
  set (sb := set_reader (deliver (arrivals (w_write w)) (reader sa))
               (record_call (Call_write_gatt_char WRITE_CHAR_UUID GETDATA_LF) sa)).
  set (s1 := set_reader (deliver (sleep_frames w 0 (S n)) (reader sb)) sb).
  set (s2 := set_notifying false
               (set_reader (deliver (arrivals (w_stop_notify w)) (reader s1))
                  (record_call (Call_stop_notify READ_CHAR_UUID) s1))).
  assert (Ha : setup_notification w s0 = Returned tt sa).
  { unfold setup_notification. rewrite Hstart.
    rewrite await_returns by exact Hstart. reflexivity. }
  assert (Hb : send_command w "GETDATA" sa = Returned tt sb).
  { unfold send_command. rewrite await_returns by exact Hwrite. reflexivity. }
  assert (Hcb : measurement_complete (reader sb) = false).
  { subst sb sa. cbn [reader set_reader].
    rewrite !deliver_complete, Hinc, Hno1, Hno2. reflexivity. }
  assert (Hl : wait_loop w timeout (w_time0 w) fuel 0 sb = Returned Exit_complete s1).
  { apply wait_loop_completion; try assumption. reflexivity. }
  assert (Hs : stop_notify w s1 = Returned tt s2).
  { unfold stop_notify. rewrite await_returns by exact Hstop. reflexivity. }
  unfold get_temperature_data, cbind. rewrite Ha, Hb, Hl, Hs.
  subst s2 s1 sb sa. unfold frames_until.
  unfold set_notifying, set_reader, record_call.
  cbn [reader calls connected csv_file notifying].
  rewrite !deliver_app, <- !app_assoc. reflexivity.
Qed.

Lemma disconnect_ends (w : world) (s' : session) :
  exists s, final_session (disconnect w s') = Some s.
Proof.
  unfold disconnect, await.
  destruct (client (reader s')); [|eexists; reflexivity].
  destruct (connected s' && w_link_alive w); [|eexists; reflexivity].
  cbn [outcome]. destruct (w_disconnect w); eexists; reflexivity.
Qed.

Lemma reconstruct_nil (device : string) (T : datetime) (buf : list Sample.t) :
  reconstruct device T buf = [] -> buf = [].
Proof. destruct buf; [reflexivity | discriminate]. Qed.

(** X17: end to end.  When connecting, the subscription, the command write,
    the sleeps, the unsubscription and the file do not fail, the first end
    marker arrives during sleep number n, before the timeout of 60, its
    last arrival time being T, at least one sample has arrived and every
    reconstructed stamp is a datetime, then [main] ends having written a
    file that holds, for each sample received, in order of arrival, the
    record of the sample stamped T minus the intervals of the samples
    received after it. *)
Theorem main_end_to_end (w : world) (fuel n : nat) (device : string)
    (T : datetime) :
  w_connect w = None ->
  w_sleep1 w = None ->
  w_save w = None ->
  outcome (w_start_notify w) = None ->
  outcome (w_write w) = None ->
  outcome (w_stop_notify w) = None ->
  (forall k, (k <= n)%nat -> outcome (fst (w_sleep w k)) = None) ->
  (forall k, (k <= n)%nat -> timed_out w 60 k = false) ->
  existsb is_end_marker
    (arrivals (w_start_notify w) ++ arrivals (w_write w) ++ sleep_frames w 0 n)
  = false ->
  last_end_marker (arrivals (fst (w_sleep w n))) = Some T ->
  existsb is_end_marker (arrivals (w_stop_notify w)) = false ->
  (n < fuel)%nat ->
  decoded (frames_until w n ++ arrivals (w_stop_notify w)) <> [] ->
  Forall (fun t => datetime_in_range t = true)
         (stamps T (decoded (frames_until w n ++ arrivals (w_stop_notify w)))) ->
  exists s,
    final_session (main_on w fuel device) = Some s
    /\ data_buffer (reader s)
       = decoded (frames_until w n ++ arrivals (w_stop_notify w))
    /\ csv_file s
       = Some (reconstruct device T
                 (decoded (frames_until w n ++ arrivals (w_stop_notify w)))).
Proof.
  intros Hconn Hsleep1 Hsave Hstart Hwrite Hstop Hsleep Hbefore Hno HT Hnostop
         Hfuel Hne Hrange.
  set (frames := frames_until w n ++ arrivals (w_stop_notify w)) in *.
  assert (Hend : existsb is_end_marker (arrivals (fst (w_sleep w n))) = true).
  { destruct (existsb is_end_marker (arrivals (fst (w_sleep w n)))) eqn:E;
      [reflexivity|].
    apply last_end_marker_None in E. congruence. }
  set (sc := set_connected true
               (record_call Call_connect
                  (set_reader (set_client (Some (mkBleakClient device)) (init device))
                              (session_of (init device))))).
  set (r2 := deliver frames (reader sc)).
  assert (Hbuf : data_buffer r2 = decoded frames).
  { subst r2. rewrite deliver_buffer. reflexivity. }
  assert (Htime : data_acquisition_time r2 = Some T).
  { subst r2 frames. rewrite deliver_time, last_end_marker_app.
    apply last_end_marker_None in Hnostop. rewrite Hnostop.
    unfold frames_until. rewrite sleep_frames_last, !last_end_marker_app, HT.
    reflexivity. }
  assert (Haddr : address r2 = device).
  { subst r2. rewrite deliver_address. reflexivity. }
  assert (Hgen : generate_csv_data r2 = Ok (reconstruct device T (decoded frames))).
  { rewrite <- Haddr at 1. rewrite <- Hbuf.
    apply generate_csv_data_reconstruct; [exact Htime|]. rewrite Hbuf. exact Hrange. }
  assert (Hbody : exists s',
             main_body w fuel (session_of (init device)) = Returned tt s'
             /\ reader s' = r2
             /\ csv_file s' = Some (reconstruct device T (decoded frames))).
  { unfold main_body, cbind, connect. cbn [reader session_of address init].
    rewrite Hconn. fold sc.
    unfold await at 1. cbn [outcome]. rewrite Hsleep1.
    unfold handle_arrivals. cbn [notifying sc set_connected record_call set_reader
                                 session_of].
    fold sc.
    rewrite (acquisition_completes w 60 n fuel sc); try assumption; [|reflexivity].
    fold frames. fold r2. rewrite Hbuf.
    destruct (decoded frames) as [|d ds] eqn:Hdec; [congruence|].
    unfold lift. cbn [reader]. rewrite Hgen.
    unfold save_to_csv. cbn [reconstruct]. rewrite Hsave.
    eexists. split; [reflexivity|]. split; reflexivity. }
  destruct Hbody as (s' & Hrun & Hreader & Hcsv).
  destruct (disconnect_ends w s') as [s Hs].
  exists s.
  assert (Hfin : final_session (main_on w fuel device) = Some s).
  { unfold main_on. cbv zeta. rewrite final_try_finally, final_try_except, Hrun.
    exact Hs. }
  apply disconnect_reader in Hs. destruct Hs as [Hr Hc].
  split; [exact Hfin|]. rewrite Hr, Hc, Hreader. split; [exact Hbuf | exact Hcsv].
Qed.

Lemma main_end_to_end_witness :
  exists s,
    final_session (main_on world_completion 2 DEVICE_ADDRESS) = Some s
    /\ data_buffer (reader s) = [Sample.mk 5 27.5 40; Sample.mk 10 28 48]
    /\ csv_file s
       = Some [ CsvRow.mk "test" DEVICE_ADDRESS "2024/01/01 09:50:00" 27.5;
                CsvRow.mk "test" DEVICE_ADDRESS "2024/01/01 10:00:00" 28 ].
Proof.
  destruct (main_end_to_end world_completion 2 1 DEVICE_ADDRESS
              (mk_datetime 2024 1 1 10 0 0))
    as (s & Hs & Hbuf & Hcsv).
  - reflexivity.
  - reflexivity.
  - reflexivity.
  - reflexivity.
  - reflexivity.
  - reflexivity.
  - intros k Hk. destruct k as [|[|k]]; [reflexivity | reflexivity | lia].
  - intros k Hk. destruct k as [|[|k]];
      [vm_compute; reflexivity | vm_compute; reflexivity | lia].
  - vm_compute. reflexivity.
  - vm_compute. reflexivity.
  - reflexivity.
  - lia.
  - vm_compute. discriminate.
  - apply Forall_forall.
    apply (proj1 (forallb_forall datetime_in_range _)).
    vm_compute. reflexivity.
  - exists s. split; [exact Hs|]. split.
    + rewrite Hbuf. vm_compute. reflexivity.
    + rewrite Hcsv. vm_compute. reflexivity.
Defined.

(** ** A second acquisition on the same reader *)

(** X18: nothing resets the completion flag or the buffer: on a reader that
    is already marked complete, [get_temperature_data] subscribes, writes
    the command and unsubscribes without sleeping once (whatever the timeout
    and the clock), and returns the old buffer followed by the samples of
    the frames that arrived during these three calls. *)
Theorem get_temperature_data_already_complete (w : world) (timeout : Z)
    (fuel : nat) (s0 : session) :
  measurement_complete (reader s0) = true ->
  outcome (w_start_notify w) = None ->
  outcome (w_write w) = None ->
  outcome (w_stop_notify w) = None ->
  exists s2,
    get_temperature_data w fuel timeout s0
    = Returned
        (data_buffer (reader s0)
         ++ decoded (arrivals (w_start_notify w) ++ arrivals (w_write w)
                     ++ arrivals (w_stop_notify w)))
        s2
    /\ calls s2
       = calls s0 ++ [Call_start_notify READ_CHAR_UUID;
                      Call_write_gatt_char WRITE_CHAR_UUID GETDATA_LF;
                      Call_stop_notify READ_CHAR_UUID]
    /\ measurement_complete (reader s2) = true.
Proof.
  intros Hc Hstart Hwrite Hstop.
  set (sa := set_reader (deliver (arrivals (w_start_notify w)) (reader s0))
               (set_notifying true
                  (record_call (Call_start_notify READ_CHAR_UUID) s0))).
  set (sb := set_reader (deliver (arrivals (w_write w)) (reader sa))
               (record_call (Call_write_gatt_char WRITE_CHAR_UUID GETDATA_LF) sa)).
  set (s2 := set_notifying false
               (set_reader (deliver (arrivals (w_stop_notify w)) (reader sb))
                  (record_call (Call_stop_notify READ_CHAR_UUID) sb))).
  assert (Ha : setup_notification w s0 = Returned tt sa).
  { unfold setup_notification. rewrite Hstart.
    rewrite await_returns by exact Hstart. reflexivity. }
  assert (Hb : send_command w "GETDATA" sa = Returned tt sb).
  { unfold send_command. rewrite await_returns by exact Hwrite. reflexivity. }
  assert (Hcb : measurement_complete (reader sb) = true).
  { subst sb sa. cbn [reader set_reader]. rewrite !deliver_complete, Hc. reflexivity. }
  assert (Hl : wait_loop w timeout (w_time0 w) fuel 0 sb = Returned Exit_complete sb).
  { destruct fuel; cbn [wait_loop]; rewrite Hcb; reflexivity. }
  assert (Hs : stop_notify w sb = Returned tt s2).
  { unfold stop_notify. rewrite await_returns by exact Hstop. reflexivity. }
  exists s2. split; [|split].
  - unfold get_temperature_data, cbind. rewrite Ha, Hb, Hl, Hs. f_equal.
    subst s2 sb sa. cbn [reader set_reader set_notifying].
    rewrite !deliver_buffer, !decoded_app, <- !app_assoc. reflexivity.
  - subst s2 sb sa. cbn [calls set_reader set_notifying record_call].
    rewrite <- !app_assoc. reflexivity.
  - subst s2. cbn [reader set_reader set_notifying].
    rewrite deliver_complete, Hcb. reflexivity.
Qed.

(** On a reader already marked complete, in [world_completion], the
    acquisition returns with no fuel at all: it never enters its loop. *)
Lemma get_temperature_data_already_complete_witness :
  exists s2,
    get_temperature_data world_completion 0 60
      (session_of (set_complete 0 (init DEVICE_ADDRESS)))
    = Returned [Sample.mk 5 27.5 40] s2.
Proof.
  destruct (get_temperature_data_already_complete world_completion 60 0
              (session_of (set_complete 0 (init DEVICE_ADDRESS))))
    as (s2 & H & _); try reflexivity.
  exists s2. rewrite H. vm_compute. reflexivity.
Defined.
